(** * Text-generation wrapper and benchmark formulas of the OPT examples

  A shallow embedding of
    - [examples/opt/model/test_text_gen.py]: the adapter
      [WrappedInferenceFunc], the three back ends built by [get_model]
      and the throughput figure of the benchmark loop;
    - [benchmark/parax/benchmark_gpt_bert.py]: [compute_tflops].

  Python code is embedded with explicit state passing: a computation is
  a function from a world to an outcome and a new world.  An outcome is
  either a value or a raised exception; whatever was written to the
  world before the exception was raised stays written, as in Python. *)

From Stdlib Require Import ZArith String Ascii List Bool Lia.
From Stdlib Require Import Floats.PrimFloat Floats.SpecFloat Floats.FloatOps.
From Stdlib Require Import Floats.FloatAxioms.
Import ListNotations.

Set Implicit Arguments.

(** ** Python outcomes and the state-and-exception monad *)

Module Py.

(** The exceptions that the embedded code can raise itself, and
    [ExternalError] for anything raised inside a library this
    repository only calls (transformers, alpa, the compiled
    executable). *)
Inductive exn : Type :=
| UnboundLocalError (name : string)
| IndexError
| NotImplementedError
| RuntimeError (msg : string)
| ZeroDivisionError
| OverflowError
| ExternalError (origin : string).

Inductive Result (A : Type) : Type :=
| Ok (a : A)
| Raise (e : exn).
Arguments Ok {A} a.
Arguments Raise {A} e.

Definition is_ok {A} (r : Result A) : bool :=
  match r with Ok _ => true | Raise _ => false end.

Definition M (W A : Type) : Type := W -> Result A * W.

Definition ret {W A} (a : A) : M W A := fun w => (Ok a, w).

Definition raise {W A} (e : exn) : M W A := fun w => (Raise e, w).

Definition bind {W A B} (m : M W A) (k : A -> M W B) : M W B :=
  fun w =>
    match m w with
    | (Ok a, w') => k a w'
    | (Raise e, w') => (Raise e, w')
    end.

Definition get {W} : M W W := fun w => (Ok w, w).
Definition put {W} (w : W) : M W unit := fun _ => (Ok tt, w).
Definition modify {W} (f : W -> W) : M W unit := fun w => (Ok tt, f w).

(** A pure fallible step (a library call whose outcome is decided
    outside this repository). *)
Definition lift {W A} (r : Result A) : M W A := fun w => (r, w).

(** Python truthiness of an optional tuple: [None] and [()] are
    false, every other tuple is true. *)
Definition truthy {A} (v : option (list A)) : bool :=
  match v with
  | None => false
  | Some [] => false
  | Some (_ :: _) => true
  end.

(** *** Strings *)

(** [needle in hay] on [str]: substring test. *)
Fixpoint contains (needle hay : string) : bool :=
  String.prefix needle hay ||
  match hay with
  | EmptyString => false
  | String _ rest => contains needle rest
  end.

(** [s.split(sep)] for a one-character separator: the pieces between
    the separators, [n + 1] of them for [n] separators. *)
Fixpoint split (sep : ascii) (s : string) : list string :=
  match s with
  | EmptyString => [EmptyString]
  | String c rest =>
      if Ascii.eqb c sep then EmptyString :: split sep rest
      else match split sep rest with
           | [] => [String c EmptyString]
           | piece :: pieces => String c piece :: pieces
           end
  end.

(** [l[i]] for a non-negative index. *)
Definition index {A} (l : list A) (i : nat) : Result A :=
  match nth_error l i with
  | Some a => Ok a
  | None => Raise IndexError
  end.

Definition upper_ascii (c : ascii) : ascii :=
  let n := nat_of_ascii c in
  if (97 <=? n)%nat && (n <=? 122)%nat then ascii_of_nat (n - 32) else c.

(** [s.upper()] on ASCII text: the letters [a] to [z] become [A] to
    [Z].  [str.upper] also maps letters outside ASCII, so what is
    stated with [upper] about a model name is stated for ASCII names
    ([Ranges.ascii_only]). *)
Fixpoint upper (s : string) : string :=
  match s with
  | EmptyString => EmptyString
  | String c rest => String (upper_ascii c) (upper rest)
  end.

(** *** Numbers: [int] is unbounded, [float] is IEEE 754 binary64 *)

(** The binary64 number nearest to an integer (ties to even);
    infinite when the integer is out of range. *)
Definition nearest_float (z : Z) : float :=
  SF2Prim (binary_normalize prec emax z 0 false).

(** [float(z)], as applied implicitly when an [int] meets a [float] in
    arithmetic: [OverflowError] when [z] is too large. *)
Definition float_of_int (z : Z) : Result float :=
  let f := nearest_float z in
  if is_infinity f then Raise OverflowError else Ok f.

(** The correctly rounded quotient of two integers, [b] not zero.  The
    quotient is computed to at least 64 significant bits, with one more
    bit that records whether anything was left over, and then rounded
    once. *)
Definition nearest_quotient (a b : Z) : float :=
  let na := Z.abs a in
  let nb := Z.abs b in
  let neg := xorb (a <? 0)%Z (b <? 0)%Z in
  let k := Z.max 0 (Z.log2 nb - Z.log2 na + 64) in
  let q := (na * 2 ^ k / nb)%Z in
  let r := ((na * 2 ^ k) mod nb)%Z in
  let m := (2 * q + (if (r =? 0)%Z then 0 else 1))%Z in
  SF2Prim (binary_normalize prec emax (if neg then - m else m)%Z (- k - 1)%Z neg).

(** [a / b] on two [int]s (true division), as CPython computes it:
    operands that are both below [2^53] in magnitude are converted to
    [float] without rounding and divided in binary64; otherwise the
    quotient is rounded once from the integers, and is an
    [OverflowError] when it is too large. *)
Definition int_truediv (a b : Z) : Result float :=
  if (b =? 0)%Z then Raise ZeroDivisionError
  else if (Z.abs a <? 2 ^ 53)%Z && (Z.abs b <? 2 ^ 53)%Z
  then Ok (nearest_float a / nearest_float b)%float
  else
    let f := nearest_quotient a b in
    if is_infinity f then Raise OverflowError else Ok f.

(** [x / y] on two [float]s. *)
Definition float_truediv (x y : float) : Result float :=
  if is_zero y then Raise ZeroDivisionError else Ok (x / y)%float.

(** [x / n] with [x] a [float] and [n] an [int]. *)
Definition float_truediv_int (x : float) (n : Z) : Result float :=
  match float_of_int n with
  | Ok y => float_truediv x y
  | Raise e => Raise e
  end.

(** [n * x] with [n] an [int] and [x] a [float]. *)
Definition int_mul_float (n : Z) (x : float) : Result float :=
  match float_of_int n with
  | Ok y => Ok (y * x)%float
  | Raise e => Raise e
  end.

(** [n + x] with [n] an [int] and [x] a [float]. *)
Definition int_add_float (n : Z) (x : float) : Result float :=
  match float_of_int n with
  | Ok y => Ok (y + x)%float
  | Raise e => Raise e
  end.

(** [x + n] with [x] a [float] and [n] an [int]. *)
Definition float_add_int (x : float) (n : Z) : Result float :=
  match float_of_int n with
  | Ok y => Ok (x + y)%float
  | Raise e => Raise e
  end.

(** Sequencing of pure fallible steps. *)
Definition and_then {A B} (r : Result A) (k : A -> Result B) : Result B :=
  match r with
  | Ok a => k a
  | Raise e => Raise e
  end.

(** *** numpy scalars *)

(** Two's-complement wrap-around of [np.int64]. *)
Definition wrap_int64 (z : Z) : Z :=
  ((z + 2 ^ 63) mod 2 ^ 64 - 2 ^ 63)%Z.

End Py.

Import Py.

Declare Scope py_scope.
Delimit Scope py_scope with py.
Notation "x <- m ;; k" := (bind m (fun x => k))
(at level 61, m at next level, right associativity) : py_scope.
Notation "m ;;; k" := (bind m (fun _ => k))
(at level 61, right associativity) : py_scope.

(** ** Two-dimensional integer tensors *)

Module Torch.

(** A tensor of shape [(length rows, ncols)].  The number of columns is
    kept apart from the rows because a batch may have no row at all.
    The element type of [input_ids] is fixed by the callers, not by
    this code; elements are integers. *)
Record Tensor : Type := mkTensor {
  ncols : nat;
  rows : list (list Z)
}.

Definition shape (t : Tensor) : nat * nat := (length (rows t), ncols t).

Definition wf (t : Tensor) : Prop :=
  Forall (fun r => length r = ncols t) (rows t).

(** [t[:, lo:hi]] for non-negative bounds; Python slices clamp. *)
Definition slice_cols (lo hi : nat) (t : Tensor) : Tensor :=
  {| ncols := Nat.min hi (ncols t) - Nat.min lo (ncols t);
     rows := map (fun r => firstn (hi - lo) (skipn lo r)) (rows t) |}.

(** [t[:, -1]]: the last column as a one-dimensional tensor; indexing
    a dimension of size zero raises [IndexError]. *)
Definition select_last (t : Tensor) : Result (list Z) :=
  match ncols t with
  | O => Raise IndexError
  | S _ => Ok (map (fun r => last r 0%Z) (rows t))
  end.

(** [v.unsqueeze(-1)]: a vector of length [n] becomes a column of
    shape [(n, 1)]. *)
Definition unsqueeze_last (v : list Z) : Tensor :=
  {| ncols := 1; rows := map (fun x => [x]) v |}.

(** [np.full_like(t, v)] for a fill value [v] in the range of the
    [int64] entries of [t]: the shape of [t], every element [v].  A
    value outside that range is cast by numpy and comes out as another
    number; what is stated about the entries of such a tensor is stated
    for values in the range ([Ranges.int64_range]). *)
Definition full_like (t : Tensor) (v : Z) : Tensor :=
  {| ncols := ncols t; rows := map (fun r => map (fun _ => v) r) (rows t) |}.

(** The column at position [i], as the list of its entries (one per
    row of the batch). *)
Definition column (i : nat) (t : Tensor) : list Z :=
  map (fun r => nth i r 0%Z) (rows t).

End Torch.

Import Torch.

Local Open Scope py_scope.
Local Open Scope string_scope.

(** ** examples/opt/model/test_text_gen.py *)

Module TextGen.

(** A Python flag argument: [None], [True] or [False]. *)
Definition PyFlag : Type := option bool.

(** [InferenceFuncConfig]: the dataclass with its defaults. *)
Record InferenceFuncConfig : Type := mkInferenceFuncConfig {
  bos_token_id : Z;
  num_beams : Z;
  num_beam_groups : Z;
  length_penalty : float;
  repetition_penalty : float;
  early_stopping : bool;
  num_return_sequences : Z;
  pad_token_id : Z;
  eos_token_id : Z;
  output_scores : bool;
  output_attentions : bool;
  output_hidden_states : bool;
  return_dict_in_generate : bool;
  is_encoder_decoder : bool;
  min_length : Z;
  no_repeat_ngram_size : Z;
  encoder_no_repeat_ngram_size : Z;
  bad_words_ids : option (list (list Z));
  diversity_penalty : float;
  forced_bos_token_id : option Z;
  forced_eos_token_id : option Z;
  remove_invalid_values : bool;
  exponential_decay_length_penalty : option float;
  top_k : Z;
  top_p : float;
  typical_p : float;
  temperature : float
}.

Definition default_InferenceFuncConfig : InferenceFuncConfig :=
  {| bos_token_id := 0; num_beams := 1; num_beam_groups := 1;
     length_penalty := 1.0; repetition_penalty := 1.0;
     early_stopping := false; num_return_sequences := 1;
     pad_token_id := 1; eos_token_id := 2; output_scores := false;
     output_attentions := false; output_hidden_states := false;
     return_dict_in_generate := false; is_encoder_decoder := false;
     min_length := 0; no_repeat_ngram_size := 0;
     encoder_no_repeat_ngram_size := 0; bad_words_ids := None;
     diversity_penalty := 0.0; forced_bos_token_id := None;
     forced_eos_token_id := None; remove_invalid_values := false;
     exponential_decay_length_penalty := None; top_k := 50;
     top_p := 1.0; typical_p := 1.0; temperature := 1.0 |}.

Section Adapter.

(** What the adapter never looks into: one layer's entry of the
    attention cache, the logits and the optional diagnostics. *)
Variables LayerCache Logits Diag : Type.

(** The cache is a tuple with one entry per layer. *)
Definition Cache : Type := list LayerCache.

(** [InferenceFuncOutput]. *)
Record InferenceFuncOutput : Type := mkInferenceFuncOutput {
  logits : Logits;
  past_key_values : option Cache;
  hidden_states : option Diag;
  attentions : option Diag
}.

(** The state a back end keeps between calls, and the signature of
    [inference_func(input_ids, past_key_values, output_attentions,
    output_hidden_states)]. *)
Variable BS : Type.

Definition InferenceFunc : Type :=
  Tensor -> option Cache -> PyFlag -> PyFlag -> M BS InferenceFuncOutput.

Variables GenConfig Executable ModelConfig : Type.

(** [WrappedInferenceFunc.__init__]. *)
Record WrappedInferenceFunc : Type := mkWrappedInferenceFunc {
  inference_func : InferenceFunc;
  config : GenConfig;
  main_input_name : string;
  executable : Executable;
  model_config : ModelConfig
}.

Definition __init__ (inference_func : InferenceFunc) (config : GenConfig)
    (executable : Executable) (model_config : ModelConfig)
    : WrappedInferenceFunc :=
  {| inference_func := inference_func;
     config := config;
     main_input_name := "input_ids";
     executable := executable;
     model_config := model_config |}.

(** [WrappedInferenceFunc.forward]. *)
Definition forward (self : WrappedInferenceFunc) (attention_mask : Tensor)
    : Result unit :=
  Raise NotImplementedError.

(** The dict returned by [prepare_inputs_for_generation], one field per
    key. *)
Record PreparedInputs : Type := mkPreparedInputs {
  prepared_input_ids : Tensor;
  prepared_past_key_values : option Cache
}.

(** [WrappedInferenceFunc.prepare_inputs_for_generation]. *)
Definition prepare_inputs_for_generation (self : WrappedInferenceFunc)
    (input_ids : Tensor) (past : option Cache) : Result PreparedInputs :=
  and_then
    (if truthy past
     then and_then (select_last input_ids) (fun v => Ok (unsqueeze_last v))
     else Ok input_ids)
    (fun input_ids' =>
       Ok {| prepared_input_ids := input_ids';
             prepared_past_key_values := past |}).

(** One recorded invocation of [inference_func]: its arguments and its
    outcome. *)
Record Invocation : Type := mkInvocation {
  inv_input_ids : Tensor;
  inv_past_key_values : option Cache;
  inv_output_attentions : PyFlag;
  inv_output_hidden_states : PyFlag;
  inv_outcome : Result InferenceFuncOutput
}.

(** The world of a call to the adapter: the back end's state and the
    invocations of [inference_func] made so far, oldest first. *)
Record World : Type := mkWorld {
  backend : BS;
  invocations : list Invocation
}.

Definition invoke (f : InferenceFunc) (input_ids : Tensor)
    (past_key_values : option Cache) (oa oh : PyFlag)
    : M World InferenceFuncOutput :=
  fun w =>
    let (r, b) := f input_ids past_key_values oa oh (backend w) in
    (r, {| backend := b;
           invocations := (invocations w ++
             [ {| inv_input_ids := input_ids;
                  inv_past_key_values := past_key_values;
                  inv_output_attentions := oa;
                  inv_output_hidden_states := oh;
                  inv_outcome := r |} ])%list |}).

(** [f] returns normally whatever it is called with. *)
Definition always_returns (f : InferenceFunc) : Prop :=
  forall input_ids past oa oh b,
    exists r b', f input_ids past oa oh b = (Ok r, b').

(** A run of direct calls to [inference_func], each with the tokens and
    the cache its caller chose, in order; the first exception ends the
    run. *)
Fixpoint call_in_turn (f : InferenceFunc)
    (calls : list (Tensor * option Cache)) (oa oh : PyFlag)
    : M BS (list InferenceFuncOutput) :=
  match calls with
  | [] => ret []
  | (input_ids, past) :: rest =>
      r <- f input_ids past oa oh ;;
      rs <- call_in_turn f rest oa oh ;;
      ret (r :: rs)
  end.

(** The calls of one generation episode: the first call carries no
    cache, every later call carries one. *)
Definition one_episode (calls : list (Tensor * option Cache)) : Prop :=
  match calls with
  | [] => False
  | (_, past) :: rest =>
      past = None /\ Forall (fun c => snd c <> None) rest
  end.

(** The local variables of [__call__] that the loop assigns: [ret]
    (unbound until the first iteration) and [past_key_values]. *)
Definition Locals : Type := (option InferenceFuncOutput * option Cache)%type.

(** The body of the loop of [__call__] at index [i]. *)
Definition call_body (self : WrappedInferenceFunc) (input_ids : Tensor)
    (oa oh : PyFlag) (i : nat) (locals : Locals) : M World Locals :=
  r <- invoke (inference_func self) (slice_cols i (i + 1) input_ids)
         (snd locals) oa oh ;;
  ret (Some r, past_key_values r).

(** [for i in idxs: body]. *)
Fixpoint for_each {W L} (body : nat -> L -> M W L) (idxs : list nat)
    (locals : L) : M W L :=
  match idxs with
  | [] => ret locals
  | i :: rest => l <- body i locals ;; for_each body rest l
  end.

(** [WrappedInferenceFunc.__call__]. *)
Definition __call__ (self : WrappedInferenceFunc) (input_ids : Tensor)
    (past_key_values : option Cache)
    (output_attentions output_hidden_states return_dict : PyFlag)
    : M World InferenceFuncOutput :=
  l <- for_each (call_body self input_ids output_attentions output_hidden_states)
         (seq 0 (ncols input_ids)) (None, past_key_values) ;;
  match fst l with
  | Some r => ret r
  | None => raise (UnboundLocalError "ret")
  end.

End Adapter.

Arguments mkInferenceFuncOutput {LayerCache Logits Diag}.
Arguments __init__ {LayerCache Logits Diag BS GenConfig Executable ModelConfig}.

(** *** The three back ends and [get_model] *)

(** [torch.float16] and [torch.float32]. *)
Inductive dtype : Type := float16 | float32.

(** The calls [get_model] makes into the libraries it imports, in the
    order it makes them. *)
Inductive Event : Type :=
| GPT2_from_pretrained (model_name : string)
| OPT_from_pretrained (model_name : string) (d : dtype)
| To_device (device : string)
| Read_config_fields
| Print_config
| Alpa_init
| Get_num_hosts
| Get_config (name : string) (num_pp_stages : Z)
| Get_pipeshard_executable
| Load_params_dis_array (path : string) (dummy : bool)
| Init_cache_dis_array (batch_size : Z) (dummy : bool)
| Executable_sync.

Definition call {A} (ev : Event) (r : Result A) : M (list Event) A :=
  fun w => (r, (w ++ [ev])%list).

Section Backends.

Variables LayerCache Logits Diag : Type.
Variables RawModel HFConfig OPTConfig Exe ParamsAval Params : Type.

Local Abbreviation Cache := (Cache LayerCache).
Local Abbreviation Output := (InferenceFuncOutput LayerCache Logits Diag).

(** The batch handed to the compiled executable. *)
Record ExecInput : Type := mkExecInput {
  input_ids : Tensor;
  position_ids : Tensor;
  cache : Cache
}.

(** What the compiled executable hands back ([output.logits],
    [output.attention_cache], [output.hidden_states],
    [output.attentions]). *)
Record ExecOutput : Type := mkExecOutput {
  exec_logits : Logits;
  attention_cache : option Cache;
  exec_hidden_states : option Diag;
  exec_attentions : option Diag
}.

(** The imported libraries: transformers, alpa and [opt_model].  Every
    call may raise; what it returns is decided outside this
    repository. *)
Record Externals : Type := mkExternals {
  GPT2LMHeadModel_from_pretrained : string -> Result RawModel;
  OPTForCausalLM_from_pretrained : string -> dtype -> Result RawModel;
  to_device : RawModel -> string -> Result RawModel;
  raw_model_config : RawModel -> HFConfig;
  read_config_fields : HFConfig -> Result InferenceFuncConfig;
  raw_model_forward :
    RawModel -> Tensor -> option Tensor -> option Cache -> PyFlag -> PyFlag ->
    Result (Logits * option Cache);
  layer_past_length : LayerCache -> Result nat;
  alpa_init : Result unit;
  cluster_num_hosts : Result Z;
  get_config : string -> Z -> Result OPTConfig;
  pad : OPTConfig -> Z;
  get_pipeshard_executable :
    OPTConfig -> bool -> bool -> Result (Exe * ParamsAval);
  load_params_dis_array :
    string -> Exe -> ParamsAval -> OPTConfig -> bool -> Result Params;
  init_cache_dis_array : Exe -> OPTConfig -> Z -> bool -> Result Cache;
  executable_sync : Exe -> Result unit;
  executable_run : Exe -> Params -> ExecInput -> Result ExecOutput
}.

Variable ext : Externals.


(** The state the closures of [get_model] keep between calls: the cell
    [step_ct] of the distributed back end, and the batches that were
    handed to the executable so far, oldest first. *)
Record BackendState : Type := mkBackendState {
  step_ct : Z;
  executable_calls : list ExecInput
}.

(** [step_ct = 0] when [get_model] defines the closure. *)
Definition initial_state : BackendState :=
  {| step_ct := 0; executable_calls := [] |}.

Definition set_step_ct (v : Z) (s : BackendState) : BackendState :=
  {| step_ct := v; executable_calls := executable_calls s |}.

(** [executable(params, batch)]. *)
Definition run_executable (executable : Exe) (params : Params)
    (batch : ExecInput) : M BackendState ExecOutput :=
  fun s =>
    (executable_run ext executable params batch,
     {| step_ct := step_ct s;
        executable_calls := (executable_calls s ++ [batch])%list |}).

(** [inference_func] of the ["gpt"] branch. *)
Definition gpt_inference_func (raw_model : RawModel) (input_ids : Tensor)
    (past_key_values : option Cache) (oa oh : PyFlag)
    : M BackendState Output :=
  out <- lift (raw_model_forward ext raw_model input_ids None
                 past_key_values oa oh) ;;
  ret (mkInferenceFuncOutput (fst out) (snd out) None None).

(** [torch.ones((n, m))]. *)
Definition ones (n m : nat) : Tensor :=
  {| ncols := m; rows := repeat (repeat 1%Z m) n |}.

(** [inference_func] of the ["facebook/opt"] branch. *)
Definition opt_inference_func (raw_model : RawModel) (device : string)
    (input_ids : Tensor) (past_key_values : option Cache) (oa oh : PyFlag)
    : M BackendState Output :=
  attention_mask <-
    match past_key_values with
    | None => ret None
    | Some c =>
        layer <- lift (index c 0) ;;
        past_length <- lift (layer_past_length ext layer) ;;
        ret (Some (ones (fst (shape input_ids)) (past_length + 1)))
    end ;;
  out <- lift (raw_model_forward ext raw_model input_ids attention_mask
                 past_key_values oa oh) ;;
  ret (mkInferenceFuncOutput (fst out) (snd out) None None).

(** [inference_func] of the ["alpa/opt"] branch.  [input_ids.cpu().numpy()]
    and [torch.from_numpy(np.array(output.logits)).to(device)] move
    data between libraries and devices and keep its value. *)
Definition alpa_inference_func (executable : Exe) (params : Params)
    (init_cache : Cache) (config : OPTConfig) (device : string)
    (input_ids : Tensor) (past_key_values : option Cache) (oa oh : PyFlag)
    : M BackendState Output :=
  past_key_values' <-
    match past_key_values with
    | None => modify (set_step_ct 0) ;;; ret init_cache
    | Some c => ret c
    end ;;
  let input_ids_step := input_ids in
  s <- get ;;
  let position_ids_step :=
    full_like input_ids_step (step_ct s + pad ext config + 1) in
  output <- run_executable executable params
              {| input_ids := input_ids_step;
                 position_ids := position_ids_step;
                 cache := past_key_values' |} ;;
  let logits_step := exec_logits output in
  modify (fun s => set_step_ct (step_ct s + 1) s) ;;;
  ret (mkInferenceFuncOutput logits_step (attention_cache output)
         (exec_hidden_states output) (exec_attentions output)).

(** The executable answers every batch, and with a cache. *)
Definition executable_returns_cache (executable : Exe) (params : Params)
    : Prop :=
  forall batch,
    exists out c,
      executable_run ext executable params batch = Ok out
      /\ attention_cache out = Some c.

(** The step count a call of the distributed [inference_func] works
    with: zero when it is given no cache, the stored one otherwise. *)
Definition step_at_call (past : option Cache) (s : BackendState) : Z :=
  match past with
  | None => 0%Z
  | Some _ => step_ct s
  end.

(** The batch such a call hands to the executable. *)
Definition batch_at_call (init_cache : Cache) (config : OPTConfig)
    (input_ids : Tensor) (past : option Cache) (s : BackendState)
    : ExecInput :=
  {| input_ids := input_ids;
     position_ids :=
       full_like input_ids (step_at_call past s + pad ext config + 1)%Z;
     cache := match past with None => init_cache | Some c => c end |}.

(** The library calls [get_model] makes before it compiles anything. *)
Definition before_compilation (ev : Event) : Prop :=
  match ev with
  | Alpa_init | Get_num_hosts | Get_config _ _ => True
  | _ => False
  end.

(** [inference_func_config] is the model's own configuration in the
    ["gpt"] branch and an [InferenceFuncConfig] in the other two. *)
Inductive GenConfig : Type :=
| ModelOwnConfig (c : HFConfig)
| MinimalConfig (c : InferenceFuncConfig).

Inductive ModelConfig : Type :=
| HFModelConfig (c : HFConfig)
| OPTModelConfig (c : OPTConfig).

Local Abbreviation Wrapped :=
  (WrappedInferenceFunc LayerCache Logits Diag BackendState GenConfig Exe
     ModelConfig).

(** The local variables of [get_model] that its [return] reads; [None]
    is a variable no statement has assigned yet. *)
Record GetModelLocals : Type := mkGetModelLocals {
  local_inference_func :
    option (InferenceFunc LayerCache Logits Diag BackendState);
  local_inference_func_config : option GenConfig;
  local_executable : option Exe;
  local_model_config : option ModelConfig
}.

(** Reading a local variable. *)
Definition load {W A} (name : string) (v : option A) : M W A :=
  match v with
  | Some a => ret a
  | None => raise (UnboundLocalError name)
  end.

(** The branch [if "gpt" in model_name]. *)
Definition gpt_branch (model_name device : string)
    : M (list Event) GetModelLocals :=
  raw_model <- call (GPT2_from_pretrained model_name)
                 (GPT2LMHeadModel_from_pretrained ext model_name) ;;
  raw_model <- call (To_device device) (to_device ext raw_model device) ;;
  ret {| local_inference_func := Some (gpt_inference_func raw_model);
         local_inference_func_config :=
           Some (ModelOwnConfig (raw_model_config ext raw_model));
         local_executable := None;
         local_model_config :=
           Some (HFModelConfig (raw_model_config ext raw_model)) |}.

(** The branch [elif "facebook/opt" in model_name]. *)
Definition opt_branch (model_name device : string)
    : M (list Event) GetModelLocals :=
  let d := if contains "cuda" device then float16 else float32 in
  raw_model <- call (OPT_from_pretrained model_name d)
                 (OPTForCausalLM_from_pretrained ext model_name d) ;;
  raw_model <- call (To_device device) (to_device ext raw_model device) ;;
  inference_func_config <-
    call Read_config_fields
      (read_config_fields ext (raw_model_config ext raw_model)) ;;
  call Print_config (Ok tt) ;;;
  ret {| local_inference_func := Some (opt_inference_func raw_model device);
         local_inference_func_config :=
           Some (MinimalConfig inference_func_config);
         local_executable := None;
         local_model_config :=
           Some (HFModelConfig (raw_model_config ext raw_model)) |}.

(** The branch [elif "alpa/opt" in model_name]. *)
Definition alpa_branch (model_name device : string) (dummy : bool)
    (cluster : string)
    (support_output_attentions support_output_hidden_states : bool)
    : M (list Event) GetModelLocals :=
  call Alpa_init (alpa_init ext) ;;;
  num_hosts <- call Get_num_hosts (cluster_num_hosts ext) ;;
  let num_pp_stages := Z.max 2 num_hosts in
  piece <- lift (index (split "-" model_name) 1) ;;
  let name := upper piece in
  config <- call (Get_config name num_pp_stages)
              (get_config ext name num_pp_stages) ;;
  path <-
    (if String.eqb cluster "aws"
     then ret ("/home/ubuntu/opt_weights/" ++ name ++ "_np")
     else if String.eqb cluster "mbzuai"
     then ret ("/dataset/opt_weights/" ++ name ++ "_np")
     else raise (RuntimeError "Unrecognized cluster.")) ;;
  compiled <- call Get_pipeshard_executable
                (get_pipeshard_executable ext config
                   support_output_attentions support_output_hidden_states) ;;
  let executable := fst compiled in
  let params_aval := snd compiled in
  params <- call (Load_params_dis_array path dummy)
              (load_params_dis_array ext path executable params_aval
                 config dummy) ;;
  init_cache <- call (Init_cache_dis_array 1 dummy)
                  (init_cache_dis_array ext executable config 1 dummy) ;;
  call Executable_sync (executable_sync ext executable) ;;;
  ret {| local_inference_func :=
           Some (alpa_inference_func executable params init_cache config
                   device);
         local_inference_func_config :=
           Some (MinimalConfig default_InferenceFuncConfig);
         local_executable := Some executable;
         local_model_config := Some (OPTModelConfig config) |}.

(** The last statement of [get_model]: the arguments of
    [WrappedInferenceFunc(...)] are read from left to right. *)
Definition return_wrapped (l : GetModelLocals) : M (list Event) Wrapped :=
  f <- load "inference_func" (local_inference_func l) ;;
  c <- load "inference_func_config" (local_inference_func_config l) ;;
  e <- load "executable" (local_executable l) ;;
  m <- load "model_config" (local_model_config l) ;;
  ret (__init__ f c e m).

(** [get_model]. *)
Definition get_model (model_name device : string) (dummy : bool)
    (cluster : string)
    (support_output_attentions support_output_hidden_states : bool)
    : M (list Event) Wrapped :=
  l <- (if contains "gpt" model_name
        then gpt_branch model_name device
        else if contains "facebook/opt" model_name
        then opt_branch model_name device
        else if contains "alpa/opt" model_name
        then alpa_branch model_name device dummy cluster
               support_output_attentions support_output_hidden_states
        else ret {| local_inference_func := None;
                    local_inference_func_config := None;
                    local_executable := None;
                    local_model_config := None |}) ;;
  return_wrapped l.

End Backends.

(** *** The benchmark loop of [__main__] *)

(** [np.prod(shape)] on a tuple of ints: a product in [np.int64]. *)
Definition np_prod (shape : list Z) : Z :=
  wrap_int64 (fold_left Z.mul shape 1%Z).

(** [speed = np.prod(generated_ids.shape) / latency]: the [np.int64]
    count becomes a [np.float64], the division is IEEE 754 division. *)
Definition speed (generated_ids_shape : list Z) (latency : float) : float :=
  (nearest_float (np_prod generated_ids_shape) / latency)%float.

(** [sum(speeds)]: starts from the [int] 0. *)
Definition sum_floats (l : list float) : float :=
  fold_left PrimFloat.add l (nearest_float 0).

(** [avg_speed = sum(speeds) / len(prompts)], with one speed per
    prompt and at least one prompt. *)
Definition avg_speed (speeds : list float) : float :=
  (sum_floats speeds / nearest_float (Z.of_nat (length speeds)))%float.

End TextGen.

(** ** benchmark/parax/benchmark_gpt_bert.py *)

Module Bench.

(** [compute_tflops] on arguments of the built-in types: the sizes
    and the number of devices are [int]s, the latency is a [float].
    The statements are those of the source, one binding per
    intermediate value in the order Python evaluates them.  The
    benchmark itself passes [np.mean(costs)], an [np.float64]: with
    such a latency the three divisions are numpy's, which give the same
    quotients but return [inf] or [nan] with a warning where a division
    by zero raises here. *)
Definition compute_tflops
    (batch_size seq_len num_layers hidden_size vocab_size num_gpus : Z)
    (latency : float) (checkpoint_activations : bool) : Result float :=
  let factor := (if checkpoint_activations then 96 else 72)%Z in
  let flop_layers :=
    (factor * batch_size * seq_len * hidden_size ^ 2 * num_layers)%Z in
  and_then (int_truediv seq_len (6 * hidden_size)) (fun ratio =>
  and_then (int_add_float 1 ratio) (fun correction =>
  and_then (int_mul_float flop_layers correction) (fun attention_and_mlp =>
  let flop_vocab :=
    (6 * batch_size * seq_len * hidden_size * vocab_size)%Z in
  and_then (float_add_int attention_and_mlp flop_vocab) (fun total_flop =>
  and_then (float_truediv total_flop latency) (fun per_second =>
  and_then (float_truediv_int per_second num_gpus) (fun per_device =>
  float_truediv per_device 1e12)))))).

(** [compute_parameter_count]. *)
Definition compute_parameter_count (num_layers hidden_size vocab_size : Z)
    : Z :=
  (num_layers * (
       hidden_size * (3 * hidden_size + 1) +
       hidden_size * (hidden_size + 1) +
       hidden_size * (4 * hidden_size + 1) +
       hidden_size * 4 * (hidden_size + 1) +
       hidden_size * 4
     ) + vocab_size * (hidden_size + 1))%Z.

End Bench.

(** ** A small concrete back end

    A stand-in for the imported libraries, small enough to run: a layer
    of the cache is the list of tokens it has seen, the logits of a
    step are the tokens of that step, and the executable appends the
    step's tokens to every layer of the cache it is given. *)

Module Toy.

Import TextGen.

Definition LayerCache : Type := list Z.
Definition Logits : Type := list Z.
Definition Diag : Type := unit.

Definition append_step (tokens : list Z) (c : Cache LayerCache)
    : Cache LayerCache :=
  map (fun layer => (layer ++ tokens)%list) c.

(** An [inference_func] that counts its calls in the back end's state
    and starts a one-layer cache when it is given none. *)
Definition counting_inference_func
    : InferenceFunc LayerCache Logits Diag nat :=
  fun input_ids past _ _ calls =>
    let tokens := column 0 input_ids in
    let c := match past with Some c => c | None => [[]] end in
    (Ok (mkInferenceFuncOutput tokens (Some (append_step tokens c))
           None None),
     S calls).

Definition model
    : WrappedInferenceFunc LayerCache Logits Diag nat unit unit unit :=
  __init__ counting_inference_func tt tt tt.

Definition prompt : Tensor := {| ncols := 3; rows := [[11; 12; 13]%Z] |}.

Definition no_token : Tensor := {| ncols := 0; rows := [[]] |}.

Definition fresh_world : World LayerCache Logits Diag nat :=
  {| backend := 0; invocations := [] |}.

(** The libraries, for [get_model]: every call succeeds. *)
Definition ext
    : Externals LayerCache Logits Diag unit unit Z unit unit unit :=
  {| GPT2LMHeadModel_from_pretrained := fun _ => Ok tt;
     OPTForCausalLM_from_pretrained := fun _ _ => Ok tt;
     to_device := fun m _ => Ok m;
     raw_model_config := fun _ => tt;
     read_config_fields := fun _ => Ok default_InferenceFuncConfig;
     raw_model_forward := fun _ ids _ past _ _ =>
       Ok (column 0 ids,
           Some (append_step (column 0 ids)
                   match past with Some c => c | None => [[]] end));
     layer_past_length := fun layer => Ok (length layer);
     alpa_init := Ok tt;
     cluster_num_hosts := Ok 1%Z;
     get_config := fun _ num_pp_stages => Ok num_pp_stages;
     pad := fun _ => 1%Z;
     get_pipeshard_executable := fun _ _ _ => Ok (tt, tt);
     load_params_dis_array := fun _ _ _ _ _ => Ok tt;
     init_cache_dis_array := fun _ _ _ _ => Ok [[]];
     executable_sync := fun _ => Ok tt;
     executable_run := fun _ _ batch =>
       Ok {| exec_logits := column 0 (input_ids batch);
             attention_cache :=
               Some (append_step (column 0 (input_ids batch)) (cache batch));
             exec_hidden_states := None;
             exec_attentions := None |} |}.

Definition one_token (t : Z) : Tensor := {| ncols := 1; rows := [[t]] |}.

(** The closure of the distributed branch over the small executable,
    with [config.pad = 1], and an episode of three calls to it. *)
Definition distributed_inference_func
    : InferenceFunc LayerCache Logits Diag (BackendState LayerCache) :=
  alpa_inference_func ext tt tt [[]] 2%Z "cpu".

Definition episode : list (Tensor * option (Cache LayerCache)) :=
  [ (one_token 5, None);
    (one_token 6, Some [[5%Z]]);
    (one_token 7, Some [[5; 6]%Z]) ].

End Toy.

(** ** More small back ends *)

Module Samples.

Import TextGen.

(** An [inference_func] that works like [Toy.counting_inference_func]
    for its first [k] calls and raises on every call after them. *)
Definition failing_after (k : nat)
    : InferenceFunc Toy.LayerCache Toy.Logits Toy.Diag nat :=
  fun input_ids past oa oh calls =>
    if (calls <? k)%nat
    then Toy.counting_inference_func input_ids past oa oh calls
    else (Raise (ExternalError "device fault"), S calls).


(** A closure state left behind by three earlier calls. *)
Definition after_three_calls : BackendState Toy.LayerCache :=
  {| step_ct := 3; executable_calls := [] |}.

Definition failing_model (k : nat)
    : WrappedInferenceFunc Toy.LayerCache Toy.Logits Toy.Diag nat unit unit
        unit :=
  __init__ (failing_after k) tt tt tt.

End Samples.

(** ** benchmark/parax/benchmark_gpt_bert.py: the driver *)

Module BenchDriver.

(** A key of a dict of this file: an [int] or a [str]. *)
Inductive pykey : Type :=
| IntKey (z : Z)
| StrKey (s : string).

(** The exceptions of the driver: the ones above, [KeyError] from a
    subscript and [ValueError] from [int]. *)
Inductive error : Type :=
| Builtin (e : exn)
| KeyError (key : pykey)
| ValueError (msg : string).

Inductive Outcome (A : Type) : Type :=
| Done (a : A)
| Failed (e : error).
Arguments Done {A} a.
Arguments Failed {A} e.

Definition D (W A : Type) : Type := W -> Outcome A * W.

Definition done {W A} (a : A) : D W A := fun w => (Done a, w).

Definition failed {W A} (e : error) : D W A := fun w => (Failed e, w).

Definition andthen {W A B} (m : D W A) (k : A -> D W B) : D W B :=
  fun w =>
    match m w with
    | (Done a, w') => k a w'
    | (Failed e, w') => (Failed e, w')
    end.

(** A step that does not touch the world. *)
Definition pure_step {W A} (r : Outcome A) : D W A := fun w => (r, w).

(** [s.count(sub)] on [str], for a non-empty [sub]: the occurrences
    are counted from left to right without overlap; [skip] is the
    number of characters still covered by the last occurrence. *)
Fixpoint count_from (sub : string) (skip : nat) (s : string) : Z :=
  match s with
  | EmptyString => 0
  | String _ rest =>
      match skip with
      | S skip' => count_from sub skip' rest
      | O =>
          if String.prefix sub s
          then (1 + count_from sub (String.length sub - 1) rest)%Z
          else count_from sub 0 rest
      end
  end.

Definition count (sub s : string) : Z := count_from sub 0 s.

(** A number as [num_gpus] holds it: the [int] that [str.count]
    returns or the [float] of ray's resource table. *)
Inductive pynum : Type :=
| PyInt (z : Z)
| PyFloat (f : float).

(** [int(x)]: a [float] is truncated towards zero; infinities and
    NaN are refused. *)
Definition int (x : pynum) : Outcome Z :=
  match x with
  | PyInt z => Done z
  | PyFloat f =>
      match Prim2SF f with
      | S754_zero _ => Done 0%Z
      | S754_infinity _ =>
          Failed (Builtin OverflowError)
      | S754_nan => Failed (ValueError "cannot convert float NaN to integer")
      | S754_finite negative m e =>
          let magnitude :=
            (if 0 <=? e then Z.pos m * 2 ^ e else Z.pos m / 2 ^ (- e))%Z in
          Done (if negative then - magnitude else magnitude)%Z
      end
  end.

(** [d[key]] on a dict with [int] keys. *)
Fixpoint subscript_int {A} (d : list (Z * A)) (key : Z) : Outcome A :=
  match d with
  | [] => Failed (KeyError (IntKey key))
  | (k, v) :: rest => if (k =? key)%Z then Done v else subscript_int rest key
  end.

(** [d[key]] on a dict with [str] keys. *)
Fixpoint subscript_str {A} (d : list (string * A)) (key : string)
    : Outcome A :=
  match d with
  | [] => Failed (KeyError (StrKey key))
  | (k, v) :: rest =>
      if String.eqb k key then Done v else subscript_str rest key
  end.

(** A benchmark case: the tuple
    [(B, S, H, L, #head, V, D1, D2)]. *)
Definition Case : Type := list Z.

Definition benchmark_suite_1_gpu : list Case :=
  [ [16; 512; 1024; 10; 1024 / 64; 25600; 1; 1];
    [8; 1024; 1536; 10; 1536 / 96; 25600; 1; 1] ]%Z.

Definition benchmark_suite_4_gpu : list Case := [].

Definition benchmark_suite_8_gpu : list Case :=
  [ [128; 512; 1024; 10; 1024 / 64; 25600; 8; 1];
    [8; 1024; 4096; 10; 4096 / 128; 25600; 8; 1] ]%Z.

Definition benchmark_suite_16_gpu : list Case := [].

(** The dict [benchmark_suites] of [benchmark_all]. *)
Definition benchmark_suites : list (Z * list Case) :=
  [ (1, benchmark_suite_1_gpu);
    (4, benchmark_suite_4_gpu);
    (8, benchmark_suite_8_gpu);
    (16, benchmark_suite_16_gpu) ]%Z.

(** The two mesh dimensions of a case, its last two entries. *)
Definition mesh_devices (case : Case) : Z :=
  (nth 6 case 0 * nth 7 case 0)%Z.

Section Driver.

(** What [benchmark_transformer_one_case] works on, and the function
    itself: it may raise. *)
Variable W : Type.
Variable benchmark_transformer_one_case : Case -> bool -> D W unit.

(** [args.local], [list_gpu_info()] and [ray.cluster_resources()]. *)
Record Environment : Type := mkEnvironment {
  args_local : bool;
  list_gpu_info : Outcome string;
  cluster_resources : Outcome (list (string * float))
}.

Variable env : Environment.

(** The world of the driver: the one of the cases, and the cases
    that were started, oldest first. *)
Record Run : Type := mkRun {
  inner : W;
  started : list Case
}.

Definition start_case (case : Case) (use_profiling : bool) : D Run unit :=
  fun w =>
    let (r, i) := benchmark_transformer_one_case case use_profiling (inner w) in
    (r, {| inner := i; started := (started w ++ [case])%list |}).

(** [for case in cases: benchmark_transformer_one_case(case, ...)]. *)
Fixpoint for_cases (cases : list Case) (use_profiling : bool) : D Run unit :=
  match cases with
  | [] => done tt
  | case :: rest =>
      andthen (start_case case use_profiling)
        (fun _ => for_cases rest use_profiling)
  end.

(** The first statement of [benchmark_all]: the number of GPUs. *)
Definition read_num_gpus : D Run pynum :=
  if args_local env
  then andthen (pure_step (list_gpu_info env))
         (fun info => done (PyInt (count "UUID" info)))
  else andthen (pure_step (cluster_resources env))
         (fun resources =>
            andthen (pure_step (subscript_str resources "GPU"))
              (fun gpus => done (PyFloat gpus))).

(** [benchmark_all]. *)
Definition benchmark_all (use_profiling : bool) : D Run unit :=
  andthen read_num_gpus (fun num_gpus =>
  andthen (pure_step (int num_gpus)) (fun key =>
  andthen (pure_step (subscript_int benchmark_suites key)) (fun cases =>
  for_cases cases use_profiling))).

(** The driver finds [n] GPUs: counted in the text of
    [list_gpu_info()] with [--local], read off ray's resources
    otherwise. *)
Definition sees_gpus (n : Z) : Prop :=
  (args_local env = true
   /\ exists info, list_gpu_info env = Done info /\ count "UUID" info = n)
  \/ (args_local env = false
      /\ exists resources gpus,
           cluster_resources env = Done resources
           /\ subscript_str resources "GPU" = Done gpus
           /\ int (PyFloat gpus) = Done n).

(** The cases always run to their end. *)
Definition cases_always_finish : Prop :=
  forall case use_profiling i,
    exists i', benchmark_transformer_one_case case use_profiling i
               = (Done tt, i').

End Driver.

(** A machine with eight GPUs seen through ray, one with two GPUs
    seen locally, and cases that do nothing but count themselves. *)
Definition ray_with_8_gpus : Environment :=
  {| args_local := false;
     list_gpu_info := Done "";
     cluster_resources := Done [("CPU", 64.0%float); ("GPU", 8.0%float)] |}.

Definition local_with_2_gpus : Environment :=
  {| args_local := true;
     list_gpu_info :=
       Done "GPU 0: A (UUID: GPU-0a) GPU 1: A (UUID: GPU-1b)";
     cluster_resources := Done [] |}.

Definition ray_without_gpus : Environment :=
  {| args_local := false;
     list_gpu_info := Done "";
     cluster_resources := Done [("CPU", 64.0%float)] |}.

Definition counting_case : Case -> bool -> D nat unit :=
  fun _ _ n => (Done tt, S n).

Definition failing_case : Case -> bool -> D nat unit :=
  fun _ _ n => (Failed (Builtin (ExternalError "out of memory")), S n).

End BenchDriver.

(** ** examples/opt/suite_opt.py *)

Module SuiteOpt.

(** One entry of [opt_specs]: [(S, H, L, head, V)]. *)
Definition Spec : Type := (Z * Z * Z * Z * Z)%type.

(** The dict [opt_specs], in the order of the source. *)
Definition opt_specs : list (string * Spec) :=
  [ ("125M", (2048, 768, 12, 12, 50272));
    ("350M", (2048, 1024, 24, 16, 50272));
    ("1.3B", (2048, 2048, 24, 32, 50272));
    ("2.7B", (2048, 2560, 32, 32, 50272));
    ("6.7B", (2048, 4096, 32, 32, 50272));
    ("13B", (2048, 5120, 40, 40, 50272));
    ("30B", (2048, 7168, 48, 56, 50272));
    ("175B", (2048, 12288, 96, 96, 50272)) ]%Z.

End SuiteOpt.

(** ** Ranges in which the embedding stands for the libraries *)

Module Ranges.


(** Text made of ASCII characters only. *)
Fixpoint ascii_only (s : string) : bool :=
  match s with
  | EmptyString => true
  | String c rest => (nat_of_ascii c <? 128)%nat && ascii_only rest
  end.

(** An [int] that [float] can hold: converting it does not overflow. *)
Definition fits_float (z : Z) : Prop := is_infinity (nearest_float z) = false.

(** An [int] that is not zero as a [float]. *)
Definition nonzero_float (z : Z) : Prop := is_zero (nearest_float z) = false.

(** An [int] below [2^53] in magnitude: [float] holds it exactly. *)
Definition exact_float (z : Z) : Prop := (Z.abs z < 2 ^ 53)%Z.

End Ranges.

(** * Properties *)

Import TextGen.

(** ** Tensors *)

Lemma slice_cols_ncols (i : nat) (t : Tensor) :
  i < ncols t -> ncols (slice_cols i (i + 1) t) = 1.
Proof. unfold slice_cols; simpl; lia. Qed.

Lemma firstn_1_skipn (i : nat) (r : list Z) :
  i < length r -> firstn 1 (skipn i r) = [nth i r 0%Z].
Proof.
  revert i; induction r as [|x r IH]; intros [|i] H; simpl in *;
    try lia; auto.
  apply IH; lia.
Qed.

(** On a rectangular tensor the slice [t[:, i:i+1]] is exactly the
    column of the tokens at position [i], one per row. *)
Lemma slice_cols_single (i : nat) (t : Tensor) :
  wf t -> i < ncols t ->
  slice_cols i (i + 1) t = unsqueeze_last (column i t).
Proof.
  intros Hwf Hi. unfold slice_cols, unsqueeze_last, column.
  f_equal; [lia|].
  rewrite map_map. apply map_ext_in. intros r Hr.
  replace (i + 1 - i) with 1 by lia.
  apply firstn_1_skipn.
  unfold wf in Hwf. rewrite Forall_forall in Hwf. rewrite (Hwf r Hr). exact Hi.
Qed.

(** ** The adapter *)

Section AdapterFacts.

Variables LayerCache Logits Diag BS GenConfig Executable ModelConfig : Type.

Local Abbreviation Wrapped :=
  (WrappedInferenceFunc LayerCache Logits Diag BS GenConfig Executable
     ModelConfig).
Local Abbreviation Output := (InferenceFuncOutput LayerCache Logits Diag).
Local Abbreviation Inv := (Invocation LayerCache Logits Diag).

Variable self : Wrapped.
Variable input_ids : Tensor.
Variables oa oh : PyFlag.

(** One iteration of the loop whose invocation returns. *)
Lemma call_body_returns (i : nat)
    (locals : Locals LayerCache Logits Diag)
    (w : World LayerCache Logits Diag BS) (r : Output) (b : BS) :
  inference_func self (slice_cols i (i + 1) input_ids) (snd locals) oa oh
    (backend w) = (Ok r, b) ->
  call_body self input_ids oa oh i locals w =
  (Ok (Some r, past_key_values r),
   {| backend := b;
      invocations :=
        (invocations w ++
         [ {| inv_input_ids := slice_cols i (i + 1) input_ids;
              inv_past_key_values := snd locals;
              inv_output_attentions := oa;
              inv_output_hidden_states := oh;
              inv_outcome := Ok r |} ])%list |}).
Proof.
  intros Hf. unfold call_body, bind, invoke. rewrite Hf. reflexivity.
Qed.

(** The loop over [n] consecutive positions starting at [start]: when
    [inference_func] returns normally, the loop does, after exactly [n]
    invocations threaded through the cache. *)
Lemma for_each_call_body (n : nat) :
  always_returns (inference_func self) ->
  forall start locals w,
  exists l' w' invs,
    for_each (call_body self input_ids oa oh) (seq start n) locals w
      = (Ok l', w')
    /\ invocations w' = (invocations w ++ invs)%list
    /\ length invs = n
    /\ (forall i inv, nth_error invs i = Some inv ->
          inv_input_ids inv = slice_cols (start + i) (start + i + 1) input_ids
          /\ inv_output_attentions inv = oa
          /\ inv_output_hidden_states inv = oh)
    /\ (forall inv, nth_error invs 0 = Some inv ->
          inv_past_key_values inv = snd locals)
    /\ (forall i prev next,
          nth_error invs i = Some prev -> nth_error invs (S i) = Some next ->
          exists r, inv_outcome prev = Ok r
                    /\ inv_past_key_values next = past_key_values r)
    /\ (n = 0 -> l' = locals)
    /\ (0 < n -> exists final r,
          nth_error invs (n - 1) = Some final
          /\ inv_outcome final = Ok r
          /\ l' = (Some r, past_key_values r)).
Proof.
  intros Hret. induction n as [|n IH]; intros start locals w.
  - exists locals, w, []. simpl. rewrite app_nil_r.
    repeat split; auto; try lia.
    + destruct i; discriminate.
    + destruct i; discriminate.
    + destruct i; discriminate.
    + discriminate.
    + destruct i; discriminate.
  - simpl. unfold bind at 1. unfold call_body at 1. unfold bind at 1.
    unfold invoke at 1.
    destruct (Hret (slice_cols start (start + 1) input_ids) (snd locals)
                oa oh (backend w)) as (r & b' & Hf).
    rewrite Hf. unfold ret at 1.
    set (inv0 := {| inv_input_ids := slice_cols start (start + 1) input_ids;
                    inv_past_key_values := snd locals;
                    inv_output_attentions := oa;
                    inv_output_hidden_states := oh;
                    inv_outcome := Ok r |}).
    set (w1 := {| backend := b';
                  invocations := (invocations w ++ [inv0])%list |}).
    destruct (IH (S start) (Some r, past_key_values r) w1)
      as (l' & w' & invs & Hrun & Hlog & Hlen & Hargs & Hfirst & Hchain
          & Hzero & Hlast).
    exists l', w', (inv0 :: invs). rewrite Hrun.
    split; [reflexivity|].
    split; [rewrite Hlog; subst w1; simpl; rewrite <- app_assoc; reflexivity|].
    split; [simpl; lia|].
    split.
    { intros [|i] inv Hnth; simpl in Hnth.
      - injection Hnth as <-. simpl.
        rewrite Nat.add_0_r. auto.
      - destruct (Hargs i inv Hnth) as (Ha & Hb & Hc).
        rewrite Ha. replace (start + S i) with (S start + i) by lia. auto. }
    split.
    { intros inv Hnth. simpl in Hnth. injection Hnth as <-. reflexivity. }
    split.
    { intros [|i] prev next Hp Hn; simpl in Hp, Hn.
      - injection Hp as <-. exists r. split; [reflexivity|].
        apply (Hfirst next Hn).
      - apply (Hchain i prev next Hp Hn). }
    split; [discriminate|].
    intros _. destruct n as [|n].
    + exists inv0, r. rewrite (Hzero eq_refl).
      destruct invs; [|discriminate]. simpl. auto.
    + destruct Hlast as (final & r' & Hnth & Hout & Hl); [lia|].
      exists final, r'. simpl. simpl in Hnth.
      rewrite Nat.sub_0_r in Hnth. auto.
Qed.

(** C1. On a batch with [N >= 1] token positions, [__call__] invokes
    [inference_func] exactly [N] times, in position order: invocation
    [i] receives the single token at position [i] of every row and the
    cache returned by invocation [i - 1] (the caller's [past_key_values]
    for [i = 0]); what [__call__] returns is exactly what the last
    invocation returned, the results of the earlier ones being used for
    their cache only. *)
Theorem call_decodes_token_by_token
    (past : option (Cache LayerCache)) (return_dict : PyFlag)
    (w : World LayerCache Logits Diag BS) :
  wf input_ids ->
  1 <= ncols input_ids ->
  always_returns (inference_func self) ->
  exists result w' invs,
    __call__ self input_ids past oa oh return_dict w = (Ok result, w')
    /\ invocations w' = (invocations w ++ invs)%list
    /\ length invs = ncols input_ids
    /\ (forall i inv, nth_error invs i = Some inv ->
          inv_input_ids inv = unsqueeze_last (column i input_ids)
          /\ inv_output_attentions inv = oa
          /\ inv_output_hidden_states inv = oh)
    /\ (forall inv, nth_error invs 0 = Some inv ->
          inv_past_key_values inv = past)
    /\ (forall i prev next,
          nth_error invs i = Some prev -> nth_error invs (S i) = Some next ->
          exists r, inv_outcome prev = Ok r
                    /\ inv_past_key_values next = past_key_values r)
    /\ (exists final,
          nth_error invs (ncols input_ids - 1) = Some final
          /\ inv_outcome final = Ok result).
Proof.
  intros Hwf HN Hret.
  destruct (for_each_call_body (ncols input_ids) Hret 0 (None, past) w)
    as (l' & w' & invs & Hrun & Hlog & Hlen & Hargs & Hfirst & Hchain
        & _ & Hlast).
  destruct Hlast as (final & r & Hnth & Hout & Hl); [lia|].
  exists r, w', invs.
  split.
  { unfold __call__, bind. rewrite Hrun. subst l'. reflexivity. }
  repeat split; auto.
  - destruct (Hargs i inv H) as (Ha & _). rewrite Ha. simpl.
    apply slice_cols_single; auto.
    assert (i < length invs) by (apply nth_error_Some; congruence). lia.
  - apply (Hargs i inv H).
  - apply (Hargs i inv H).
  - exists final. auto.
Qed.

(** C10. Without a token position the loop body never runs: [__call__]
    makes no invocation and fails on [return ret] with an unbound local
    variable; so a call that returns normally had [N >= 1]. *)
Theorem call_needs_a_token
    (past : option (Cache LayerCache)) (return_dict : PyFlag)
    (w : World LayerCache Logits Diag BS) :
  (ncols input_ids = 0 ->
     __call__ self input_ids past oa oh return_dict w
       = (Raise (UnboundLocalError "ret"), w))
  /\ (forall result w',
        __call__ self input_ids past oa oh return_dict w = (Ok result, w') ->
        1 <= ncols input_ids).
Proof.
  assert (H0 : ncols input_ids = 0 ->
               __call__ self input_ids past oa oh return_dict w
               = (Raise (UnboundLocalError "ret"), w)).
  { intros H. unfold __call__. rewrite H. reflexivity. }
  split; [exact H0|].
  intros result w' Hrun.
  destruct (ncols input_ids) eqn:E; [|lia].
  rewrite (H0 eq_refl) in Hrun. discriminate.
Qed.

End AdapterFacts.

Lemma last_nth (r : list Z) :
  last r 0%Z = nth (length r - 1) r 0%Z.
Proof.
  induction r as [|x [|y r] IH]; simpl in *; auto.
  rewrite IH. rewrite Nat.sub_0_r. reflexivity.
Qed.

(** On a rectangular tensor with a column, [t[:, -1]] is its last
    column. *)
Lemma select_last_column (t : Tensor) :
  wf t -> 1 <= ncols t ->
  select_last t = Ok (column (ncols t - 1) t).
Proof.
  intros Hwf Hn. unfold select_last, column.
  destruct (ncols t) as [|n] eqn:E; [lia|].
  f_equal. apply map_ext_in. intros r Hr.
  unfold wf in Hwf. rewrite Forall_forall in Hwf.
  rewrite last_nth, (Hwf r Hr), E. reflexivity.
Qed.

Section PrepareInputs.

Variables LayerCache Logits Diag BS GenConfig Executable ModelConfig : Type.
Variable self :
  WrappedInferenceFunc LayerCache Logits Diag BS GenConfig Executable
    ModelConfig.

(** C3, amended. [prepare_inputs_for_generation] tests the truth value
    of [past]: with a cache that is neither [None] nor an empty tuple,
    and a history of at least one token, ["input_ids"] is the last
    column alone, of width 1; with [None] or an empty tuple it is the
    whole history, whatever its length.  ["past_key_values"] is [past]
    itself in both cases. *)
Theorem prepare_inputs_last_token_or_all
    (input_ids : Tensor) (past : option (Cache LayerCache)) :
  wf input_ids ->
  (truthy past = true -> 1 <= ncols input_ids ->
     prepare_inputs_for_generation self input_ids past
       = Ok {| prepared_input_ids :=
                 unsqueeze_last (column (ncols input_ids - 1) input_ids);
               prepared_past_key_values := past |})
  /\ (truthy past = false ->
        prepare_inputs_for_generation self input_ids past
          = Ok {| prepared_input_ids := input_ids;
                  prepared_past_key_values := past |}).
Proof.
  intros Hwf. unfold prepare_inputs_for_generation. split.
  - intros Ht Hn. rewrite Ht, (select_last_column Hwf Hn). reflexivity.
  - intros Ht. rewrite Ht. reflexivity.
Qed.

End PrepareInputs.

(** ** The distributed back end *)

Section DistributedFacts.

Variables LayerCache Logits Diag : Type.
Variables RawModel HFConfig OPTConfig Exe ParamsAval Params : Type.
Variable ext :
  Externals LayerCache Logits Diag RawModel HFConfig OPTConfig Exe ParamsAval
    Params.

Variable executable : Exe.
Variable params : Params.
Variable init_cache : Cache LayerCache.
Variable config : OPTConfig.
Variable device : string.

Local Abbreviation State := (BackendState LayerCache).
Local Abbreviation inference_func :=
  (alpa_inference_func ext executable params init_cache config device).
Local Abbreviation batch_at_call := (batch_at_call ext init_cache config).

(** One call, step by step: the batch is built from the step count of
    the call and handed over; the counter moves only when the
    executable has answered. *)
Lemma inference_func_unfold (input_ids : Tensor)
    (past : option (Cache LayerCache)) (oa oh : PyFlag) (s : State) :
  inference_func input_ids past oa oh s =
  let batch := batch_at_call input_ids past s in
  let handed :=
    {| step_ct := step_at_call past s;
       executable_calls := (executable_calls s ++ [batch])%list |} in
  match executable_run ext executable params batch with
  | Ok out =>
      (Ok (mkInferenceFuncOutput (exec_logits out) (attention_cache out)
             (exec_hidden_states out) (exec_attentions out)),
       set_step_ct (step_at_call past s + 1)%Z handed)
  | Raise e => (Raise e, handed)
  end.
Proof.
  unfold alpa_inference_func, TextGen.batch_at_call, step_at_call.
  destruct past as [c|]; cbn;
    match goal with
    | |- context [executable_run ?a ?b ?c ?d] =>
        destruct (executable_run a b c d)
    end; reflexivity.
Qed.






(** C6. A call without a cache does what a call with the initial cache
    does when the counter reads zero: same outcome, same batch handed
    to the executable, same state left behind. *)
Theorem no_cache_is_initial_cache (input_ids : Tensor) (oa oh : PyFlag) :
  (forall s,
     inference_func input_ids None oa oh s =
     inference_func input_ids (Some init_cache) oa oh (set_step_ct 0 s))
  /\ (forall s,
        step_ct s = 0%Z ->
        inference_func input_ids None oa oh s =
        inference_func input_ids (Some init_cache) oa oh s).
Proof.
  assert (H : forall s,
             inference_func input_ids None oa oh s =
             inference_func input_ids (Some init_cache) oa oh
               (set_step_ct 0 s)).
  { intros s. rewrite !inference_func_unfold. reflexivity. }
  split; [exact H|].
  intros [step log] Hs. cbn in Hs. subst step. apply H.
Qed.

Lemma inference_func_returns_cache (input_ids : Tensor)
    (past : option (Cache LayerCache)) (oa oh : PyFlag) (s : State) :
  executable_returns_cache ext executable params ->
  exists r c s',
    inference_func input_ids past oa oh s = (Ok r, s')
    /\ past_key_values r = Some c
    /\ step_ct s' = (step_at_call past s + 1)%Z.
Proof.
  intros Hans. rewrite inference_func_unfold. cbv zeta.
  destruct (Hans (batch_at_call input_ids past s)) as (out & c & -> & Hc).
  eexists _, c, _. repeat split. exact Hc.
Qed.

(** The adapter around the distributed closure: a prompt of [N >= 1]
    tokens given without a cache is decoded in [N] steps, and the
    counter reads [N] afterwards. *)
Lemma later_positions_count (cfg : GenConfig HFConfig)
    (mc : ModelConfig HFConfig OPTConfig) (input_ids : Tensor)
    (oa oh : PyFlag) (n : nat) :
  executable_returns_cache ext executable params ->
  forall start locals w,
  snd locals <> None ->
  exists l' w',
    for_each
      (call_body (__init__ inference_func cfg executable mc) input_ids oa oh)
      (seq start n) locals w = (Ok l', w')
    /\ step_ct (backend w') = (step_ct (backend w) + Z.of_nat n)%Z
    /\ (fst locals <> None -> fst l' <> None).
Proof.
  intros Hans. induction n as [|n IH]; intros start locals w Hpast.
  - exists locals, w. cbn. repeat split; auto; lia.
  - destruct (inference_func_returns_cache
                (slice_cols start (start + 1) input_ids) (snd locals) oa oh
                (backend w) Hans) as (r & c & s' & Hf & Hc & Hs).
    cbn [seq for_each]. unfold bind at 1.
    rewrite (call_body_returns (__init__ inference_func cfg executable mc)
               input_ids oa oh start locals w Hf).
    match goal with
    | |- context [for_each _ _ ?l ?w1] =>
        destruct (IH (S start) l w1) as (l' & w' & Hrun & Hstep & Hret);
          [cbn; congruence|]
    end.
    exists l', w'. split; [exact Hrun|]. split.
    + rewrite Hstep. cbn [backend]. rewrite Hs.
      destruct locals as [r0 [c0|]]; [cbn; lia | cbn in Hpast; congruence].
    + intros _. apply Hret. discriminate.
Qed.

Lemma prompt_fills_cache (cfg : GenConfig HFConfig)
    (mc : ModelConfig HFConfig OPTConfig) (input_ids : Tensor)
    (oa oh return_dict : PyFlag)
    (w : World LayerCache Logits Diag State) :
  executable_returns_cache ext executable params ->
  1 <= ncols input_ids ->
  exists r w',
    __call__ (__init__ inference_func cfg executable mc) input_ids None
      oa oh return_dict w = (Ok r, w')
    /\ step_ct (backend w') = Z.of_nat (ncols input_ids).
Proof.
  intros Hans HN. unfold __call__.
  destruct (ncols input_ids) as [|n]; [lia|]. clear HN.
  destruct (inference_func_returns_cache
              (slice_cols 0 (0 + 1) input_ids) None oa oh
              (backend w) Hans) as (r & c & s' & Hf & Hc & Hs).
  unfold bind at 1. cbn [seq for_each]. unfold bind at 1.
  rewrite (call_body_returns (__init__ inference_func cfg executable mc)
             input_ids oa oh 0 (None, None) w Hf).
  match goal with
  | |- context [for_each _ _ ?l ?w1] =>
      destruct (later_positions_count cfg mc input_ids oa oh n Hans 1 l w1)
        as (l' & w' & Hrun & Hstep & Hret); [cbn; congruence|]
  end.
  rewrite Hrun.
  destruct l' as [[r'|] p]; [|exfalso; apply Hret; [discriminate|reflexivity]].
  exists r', w'. split; [reflexivity|].
  rewrite Hstep. cbn [backend]. rewrite Hs. cbn [step_at_call]. lia.
Qed.

End DistributedFacts.

(** ** [get_model] *)

(** Follows one library call of [get_model] in both of its outcomes. *)
Ltac library_call :=
  match goal with
  | |- context [bind (call _ ?r) _ _] =>
      unfold bind at 1, call at 1; destruct r eqn:?
  | |- context [bind (lift ?r) _ _] =>
      unfold bind at 1, lift at 1; destruct r eqn:?
  end.

(** Closes a case in which [get_model] has raised: the events so far
    are the ones logged, all of them library calls made before
    compilation, and the case contradicts the assumption that the
    failed call succeeded. *)
Ltac raised_early :=
  eexists _, _;
  split; [rewrite <- ?app_assoc; reflexivity|];
  split; [once (repeat constructor)|];
  try (intros; congruence); try reflexivity; auto.

(** Closes a case by the exception [get_model] ends with there. *)
Ltac raised :=
  eexists _, _; split; [reflexivity | intros; subst; congruence].

Section GetModelFacts.

Variables LayerCache Logits Diag : Type.
Variables RawModel HFConfig OPTConfig Exe ParamsAval Params : Type.
Variable ext :
  Externals LayerCache Logits Diag RawModel HFConfig OPTConfig Exe ParamsAval
    Params.

Variables model_name device : string.
Variable dummy : bool.
Variable cluster : string.
Variables support_output_attentions support_output_hidden_states : bool.

Local Abbreviation get_model_here :=
  (get_model ext model_name device dummy cluster support_output_attentions
     support_output_hidden_states).

(** The distributed branch up to the test of [cluster]: with a cluster
    that is neither ["aws"] nor ["mbzuai"] it raises before the
    executable is compiled. *)
Lemma alpa_branch_unrecognized_cluster (w : list Event) :
  cluster <> "aws" -> cluster <> "mbzuai" ->
  exists e evs,
    alpa_branch ext model_name device dummy cluster
      support_output_attentions support_output_hidden_states w
      = (Raise e, (w ++ evs)%list)
    /\ Forall before_compilation evs
    /\ (forall u h piece cfg,
          alpa_init ext = Ok u ->
          cluster_num_hosts ext = Ok h ->
          index (split "-" model_name) 1 = Ok piece ->
          get_config ext (upper piece) (Z.max 2 h) = Ok cfg ->
          e = RuntimeError "Unrecognized cluster.").
Proof.
  intros Haws Hmbz. unfold alpa_branch.
  apply String.eqb_neq in Haws. apply String.eqb_neq in Hmbz.
  rewrite Haws, Hmbz.
  library_call; [|raised_early].
  library_call; [|raised_early].
  library_call; [|raised_early].
  library_call; [|raised_early].
  raised_early.
Qed.

(** C7. With the distributed back end selected and a cluster that is
    neither ["aws"] nor ["mbzuai"], [get_model] raises, and it does so
    before compiling the executable or loading anything; the exception
    is [RuntimeError("Unrecognized cluster.")] unless a library call
    before the test raised first.  With a model name of none of the
    three families, [get_model] makes no library call and raises on its
    [return], reading the unassigned [inference_func]: no adapter is
    returned. *)
Theorem get_model_rejects_unknown_configuration (w : list Event) :
  (contains "gpt" model_name = false ->
   contains "facebook/opt" model_name = false ->
   contains "alpa/opt" model_name = true ->
   cluster <> "aws" -> cluster <> "mbzuai" ->
   exists e evs,
     get_model_here w = (Raise e, (w ++ evs)%list)
     /\ Forall before_compilation evs
     /\ (forall u h piece cfg,
           alpa_init ext = Ok u ->
           cluster_num_hosts ext = Ok h ->
           index (split "-" model_name) 1 = Ok piece ->
           get_config ext (upper piece) (Z.max 2 h) = Ok cfg ->
           e = RuntimeError "Unrecognized cluster."))
  /\ (contains "gpt" model_name = false ->
      contains "facebook/opt" model_name = false ->
      contains "alpa/opt" model_name = false ->
      get_model_here w = (Raise (UnboundLocalError "inference_func"), w)).
Proof.
  split.
  - intros Hg Hf Ha Haws Hmbz. unfold get_model. rewrite Hg, Hf, Ha.
    destruct (alpa_branch_unrecognized_cluster w Haws Hmbz)
      as (e & evs & Hrun & Hev & He).
    exists e, evs. unfold bind at 1. rewrite Hrun. auto.
  - intros Hg Hf Ha. unfold get_model. rewrite Hg, Hf, Ha. reflexivity.
Qed.

(** C2, what the code does.  The two single-device branches never
    assign [executable], which the [return] of [get_model] reads: with
    a model name of the ["gpt"] or of the ["facebook/opt"] family
    [get_model] raises in every case, and when the model was loaded the
    exception is the unbound local variable [executable]. *)
Theorem get_model_single_device_raises (w : list Event) :
  (contains "gpt" model_name = true ->
   exists e w',
     get_model_here w = (Raise e, w')
     /\ (forall m m',
           GPT2LMHeadModel_from_pretrained ext model_name = Ok m ->
           to_device ext m device = Ok m' ->
           e = UnboundLocalError "executable"))
  /\ (contains "gpt" model_name = false ->
      contains "facebook/opt" model_name = true ->
      exists e w',
        get_model_here w = (Raise e, w')
        /\ (forall d m m' c,
              OPTForCausalLM_from_pretrained ext model_name d = Ok m ->
              d = (if contains "cuda" device then float16 else float32) ->
              to_device ext m device = Ok m' ->
              read_config_fields ext (raw_model_config ext m') = Ok c ->
              e = UnboundLocalError "executable")).
Proof.
  split.
  - intros Hg. unfold get_model. rewrite Hg. unfold gpt_branch.
    unfold bind at 1.
    library_call; [|raised].
    library_call; [|raised].
    raised.
  - intros Hg Hf. unfold get_model. rewrite Hg, Hf. unfold opt_branch.
    unfold bind at 1.
    library_call; [|raised].
    library_call; [|raised].
    library_call; [|raised].
    raised.
Qed.

(** The distributed branch, for comparison: when every library call
    succeeds and the cluster is known, [get_model] returns the adapter
    around the closure over the compiled executable, with its four
    fields set. *)
Lemma get_model_distributed_returns (w : list Event)
    u h piece cfg exe aval prm c0 u' :
  contains "gpt" model_name = false ->
  contains "facebook/opt" model_name = false ->
  contains "alpa/opt" model_name = true ->
  cluster = "aws" ->
  alpa_init ext = Ok u ->
  cluster_num_hosts ext = Ok h ->
  index (split "-" model_name) 1 = Ok piece ->
  get_config ext (upper piece) (Z.max 2 h) = Ok cfg ->
  get_pipeshard_executable ext cfg support_output_attentions
    support_output_hidden_states = Ok (exe, aval) ->
  load_params_dis_array ext
    ("/home/ubuntu/opt_weights/" ++ upper piece ++ "_np") exe aval cfg dummy
    = Ok prm ->
  init_cache_dis_array ext exe cfg 1 dummy = Ok c0 ->
  executable_sync ext exe = Ok u' ->
  exists w',
    get_model_here w =
    (Ok (__init__ (alpa_inference_func ext exe prm c0 cfg device)
           (MinimalConfig HFConfig default_InferenceFuncConfig) exe
           (OPTModelConfig HFConfig cfg)),
     w').
Proof.
  intros Hg Hf Ha -> H1 H2 H3 H4 H5 H6 H7 H8.
  unfold get_model. rewrite Hg, Hf, Ha.
  unfold alpa_branch, bind, call, lift, ret.
  rewrite H1, H2, H3, H4, String.eqb_refl, H5. cbn [fst snd].
  rewrite H6, H7, H8.
  eexists. reflexivity.
Qed.

End GetModelFacts.

(** ** Throughput and TFLOPS *)

(** C8. The speed of a prompt is the number of entries of
    [generated_ids] (rows times columns, in [np.int64]) divided by the
    latency in binary64; 256 tokens in one row and a latency of 2.0
    seconds give 128.0 exactly, and so does the average that is
    written to the result file when each of the three prompts gives
    that speed. *)
Theorem speed_is_tokens_over_latency :
  (forall batch gen_len latency,
     speed [batch; gen_len] latency =
     (nearest_float (wrap_int64 (batch * gen_len)) / latency)%float)
  /\ np_prod [1; 256]%Z = 256%Z
  /\ speed [1; 256]%Z 2.0 = 128.0%float
  /\ avg_speed [speed [1; 256]%Z 2.0; speed [1; 256]%Z 2.0;
                speed [1; 256]%Z 2.0] = 128.0%float.
Proof.
  split.
  - intros batch gen_len latency. unfold speed, np_prod. cbn [fold_left].
    rewrite Z.mul_1_l. reflexivity.
  - repeat split; vm_compute; reflexivity.
Qed.

Import Bench.

(** A latency above zero is not the [float] zero. *)
Lemma positive_is_not_zero (t : float) :
  (0 <? t)%float = true -> is_zero t = false.
Proof.
  unfold is_zero. rewrite ltb_spec, eqb_spec.
  change (Prim2SF 0) with (S754_zero false).
  destruct (Prim2SF t) as [[|]|[|]| |[|] m e]; cbn; congruence.
Qed.

(** C9. [compute_tflops] is the closed form
    [(factor * B * S * H^2 * L * (1 + S / (6 * H)) + 6 * B * S * H * V)
     / t / G / 1e12] in binary64, [factor] being 96 with
    [checkpoint_activations] and 72 without, on these conditions: the
    hidden size [H] is not zero (with [H = 0] the function raises
    [ZeroDivisionError] whatever the other arguments are); [S] and
    [6 * H] are below [2^53] in magnitude; the two integer products
    and [G] convert to [float] without overflow, [G] to a number that
    is not zero; and the latency is above zero.  The integer products
    are computed exactly and rounded once when they meet a [float], and
    every other operation is the binary64 one, in the order of the
    source.  Five evaluations give the numbers Python gives; in the
    last one [S] is above [2^53] and [S / (6 * H)] is the quotient of
    the integers rounded once, which is not the quotient of the two
    rounded operands. *)
Theorem compute_tflops_value
    (B S L H V G : Z) (t : float) (checkpoint_activations : bool) :
  let factor := (if checkpoint_activations then 96 else 72)%Z in
  let flop_layers := (factor * B * S * H ^ 2 * L)%Z in
  let flop_vocab := (6 * B * S * H * V)%Z in
  (H = 0%Z ->
   compute_tflops B S L H V G t checkpoint_activations
     = Raise ZeroDivisionError)
  /\ (H <> 0%Z ->
      Ranges.exact_float S -> Ranges.exact_float (6 * H) ->
      Ranges.fits_float flop_layers -> Ranges.fits_float flop_vocab ->
      Ranges.fits_float G -> Ranges.nonzero_float G ->
      (0 <? t)%float = true ->
      compute_tflops B S L H V G t checkpoint_activations
        = Ok ((nearest_float flop_layers
                 * (1 + nearest_float S / nearest_float (6 * H))
               + nearest_float flop_vocab)
              / t / nearest_float G / 1e12)%float)
  /\ compute_tflops 16 512 10 1024 25600 1 0.5 false
       = Ok 0x1.ff45dd3a46629p+3%float
  /\ compute_tflops 8 1024 10 4096 25600 8 0.25 true
       = Ok 0x1.1d2f92741e507p+6%float
  /\ compute_tflops 1023 2047 97 12289 50273 16 1.75 false
       = Ok 0x1.3dc42f99e4931p+16%float
  /\ compute_tflops 1023 2047 97 (-12289) 50273 3 0.125 true
       = Ok 0x1.d0bdf2106d33bp+22%float
  /\ compute_tflops 1 (2 ^ 53 + 1) 1 1 1 1 1 false
       = Ok 0x1.a636641c4df21p+69%float.
Proof.
  intros factor flop_layers flop_vocab.
  split; [intros ->; reflexivity|].
  split; [|repeat split; vm_compute; reflexivity].
  intros HH HS H6 Hlayers Hvocab HG HG0 Ht.
  unfold Ranges.exact_float in HS, H6.
  unfold Ranges.fits_float in Hlayers, Hvocab, HG.
  unfold Ranges.nonzero_float in HG0.
  unfold compute_tflops. fold factor. fold flop_layers. fold flop_vocab.
  generalize dependent flop_layers. generalize dependent flop_vocab.
  intros flop_vocab Hvocab flop_layers Hlayers.
  unfold int_truediv.
  destruct (Z.eqb_spec (6 * H) 0) as [H0|_]; [lia|].
  destruct (Z.ltb_spec (Z.abs S) (2 ^ 53)) as [_|]; [|lia].
  destruct (Z.ltb_spec (Z.abs (6 * H)) (2 ^ 53)) as [_|]; [|lia].
  cbn [andb and_then].
  generalize dependent (6 * H)%Z. intros six_h _.
  change (int_add_float 1 ?x) with (Ok (1 + x)%float). cbn [and_then].
  unfold int_mul_float, float_add_int, float_truediv_int, float_of_int.
  rewrite Hlayers. cbn [and_then]. rewrite Hvocab. cbn [and_then].
  unfold float_truediv at 1. rewrite (positive_is_not_zero Ht).
  cbn [and_then]. rewrite HG.
  unfold float_truediv at 1. rewrite HG0. cbn [and_then].
  reflexivity.
Qed.

(** A benchmark case of the suite, evaluated. *)
Example compute_tflops_example :
  compute_tflops 8 1024 12 768 51200 4 0.5 false = Ok 0x1.c24000c22f1eap+1%float
  /\ compute_tflops 8 1024 12 0 51200 4 0.5 false = Raise ZeroDivisionError.
Proof. split; vm_compute; reflexivity. Qed.

(** C9 as stated fails: a latency above zero is not enough for a value
    to be returned.  With a hidden size of zero, [seq_len / (6 *
    hidden_size)] divides an [int] by the [int] zero and
    [compute_tflops] raises [ZeroDivisionError]. *)
Lemma compute_tflops_not_for_every_hidden_size :
  ~ (forall (B S L H V G : Z) (t : float) (checkpoint_activations : bool),
       (0 <? t)%float = true ->
       exists v, compute_tflops B S L H V G t checkpoint_activations = Ok v).
Proof.
  intros H.
  destruct (H 8%Z 1024%Z 12%Z 0%Z 51200%Z 4%Z 0.5%float false eq_refl)
    as (v & Hv).
  discriminate Hv.
Qed.

(** The case of 8 sequences of 1024 tokens, 12 layers of width 768, a
    vocabulary of 51200, 4 devices and half a second: every condition
    holds, and the value is the one of the formula. *)
Lemma compute_tflops_value_witness :
  compute_tflops 8 1024 12 768 51200 4 0.5 false
    = Ok ((nearest_float (72 * 8 * 1024 * 768 ^ 2 * 12)
             * (1 + nearest_float 1024 / nearest_float (6 * 768))
           + nearest_float (6 * 8 * 1024 * 768 * 51200))
          / 0.5 / nearest_float 4 / 1e12)%float
  /\ ((nearest_float (72 * 8 * 1024 * 768 ^ 2 * 12)
         * (1 + nearest_float 1024 / nearest_float (6 * 768))
       + nearest_float (6 * 8 * 1024 * 768 * 51200))
      / 0.5 / nearest_float 4 / 1e12)%float = 0x1.c24000c22f1eap+1%float.
Proof.
  split; [|vm_compute; reflexivity].
  apply (proj1 (proj2 (compute_tflops_value 8 1024 12 768 51200 4 0.5 false))).
  - discriminate.
  - unfold Ranges.exact_float. cbn. lia.
  - unfold Ranges.exact_float. cbn. lia.
  - vm_compute. reflexivity.
  - vm_compute. reflexivity.
  - vm_compute. reflexivity.
  - vm_compute. reflexivity.
  - vm_compute. reflexivity.
Defined.

(** ** The properties on the small back end *)

Lemma toy_always_returns : always_returns (inference_func Toy.model).
Proof. intros input_ids past oa oh b. eexists _, _. reflexivity. Qed.

Lemma toy_prompt_wf : wf Toy.prompt.
Proof. repeat constructor. Qed.


(** Three tokens: three invocations, and the result of the third. *)
Lemma call_decodes_token_by_token_witness :
  exists result w',
    __call__ Toy.model Toy.prompt None None None None Toy.fresh_world
      = (Ok result, w')
    /\ length (invocations w') = 3.
Proof.
  destruct (call_decodes_token_by_token Toy.model None None
              None None Toy.fresh_world toy_prompt_wf
              (le_S _ _ (le_S _ _ (le_n 1))) toy_always_returns)
    as (result & w' & invs & Hrun & Hlog & Hlen & _).
  exists result, w'. split; [exact Hrun|].
  rewrite Hlog. exact Hlen.
Defined.

(** No token: the unbound [ret]; three tokens: a normal return. *)
Lemma call_needs_a_token_witness :
  __call__ Toy.model Toy.no_token None None None None Toy.fresh_world
    = (Raise (UnboundLocalError "ret"), Toy.fresh_world)
  /\ 1 <= ncols Toy.prompt.
Proof.
  split.
  - apply (proj1 (call_needs_a_token Toy.model Toy.no_token None None None
                    None Toy.fresh_world)).
    reflexivity.
  - eapply (proj2 (call_needs_a_token Toy.model Toy.prompt None None None
                     None Toy.fresh_world)).
    reflexivity.
Defined.

(** C3 as stated fails.  With a cache and a history without a token
    position, [input_ids[:, -1]] raises [IndexError] and no dict is
    returned; with the empty tuple as the cache (see
    [prepare_inputs_empty_cache]) the whole history is returned
    although a cache was passed. *)
Lemma prepare_inputs_not_for_every_history :
  ~ (forall (input_ids : Tensor) (past : option (Cache Toy.LayerCache)),
       exists prepared,
         prepare_inputs_for_generation Toy.model input_ids past = Ok prepared
         /\ (past <> None ->
             prepared_input_ids prepared =
               unsqueeze_last (column (ncols input_ids - 1) input_ids))
         /\ (past = None -> prepared_input_ids prepared = input_ids)
         /\ prepared_past_key_values prepared = past).
Proof.
  intros H. destruct (H Toy.no_token (Some [[11%Z]])) as (prepared & Hp & _).
  discriminate Hp.
Qed.

Example prepare_inputs_empty_history :
  prepare_inputs_for_generation Toy.model Toy.no_token (Some [[11%Z]])
    = Raise IndexError.
Proof. reflexivity. Qed.

Example prepare_inputs_empty_cache :
  prepare_inputs_for_generation Toy.model Toy.prompt (Some [])
    = Ok {| prepared_input_ids := Toy.prompt;
            prepared_past_key_values := Some [] |}.
Proof. reflexivity. Qed.

Lemma prepare_inputs_last_token_or_all_witness :
  prepare_inputs_for_generation Toy.model Toy.prompt (Some [[11; 12]%Z])
    = Ok {| prepared_input_ids := Toy.one_token 13;
            prepared_past_key_values := Some [[11; 12]%Z] |}
  /\ prepare_inputs_for_generation Toy.model Toy.prompt None
       = Ok {| prepared_input_ids := Toy.prompt;
               prepared_past_key_values := None |}.
Proof.
  split.
  - apply (proj1 (prepare_inputs_last_token_or_all Toy.model
                    (Some [[11; 12]%Z]) toy_prompt_wf)).
    + reflexivity.
    + repeat constructor.
  - apply (proj2 (prepare_inputs_last_token_or_all Toy.model None
                    toy_prompt_wf)).
    reflexivity.
Defined.

Lemma toy_episode_is_one : one_episode Toy.episode.
Proof. split; [reflexivity|]. repeat constructor; discriminate. Qed.



Lemma no_cache_is_initial_cache_witness :
  Toy.distributed_inference_func (Toy.one_token 5) None None None
    (initial_state Toy.LayerCache)
  = Toy.distributed_inference_func (Toy.one_token 5) (Some [[]]) None None
      (initial_state Toy.LayerCache).
Proof.
  apply (proj2 (no_cache_is_initial_cache Toy.ext tt tt [[]] 2%Z "cpu"
                  (Toy.one_token 5) None None)).
  reflexivity.
Defined.

Lemma get_model_rejects_unknown_configuration_witness :
  (exists e evs,
     get_model Toy.ext "alpa/opt-125m" "cpu" false "gcp" false false []
       = (Raise e, evs)
     /\ e = RuntimeError "Unrecognized cluster.")
  /\ get_model Toy.ext "bert-base" "cpu" false "aws" false false []
       = (Raise (UnboundLocalError "inference_func"), []).
Proof.
  split.
  - destruct (proj1 (get_model_rejects_unknown_configuration Toy.ext
                       "alpa/opt-125m" "cpu" false "gcp" false false []))
      as (e & evs & Hrun & _ & He); try reflexivity; try discriminate.
    exists e, ([] ++ evs)%list. split; [exact Hrun|].
    apply (He tt 1%Z "125m" 2%Z); reflexivity.
  - apply (proj2 (get_model_rejects_unknown_configuration Toy.ext
                    "bert-base" "cpu" false "aws" false false []));
      reflexivity.
Defined.

Lemma get_model_single_device_raises_witness :
  (exists w',
     get_model Toy.ext "gpt2" "cpu" false "aws" false false []
       = (Raise (UnboundLocalError "executable"), w'))
  /\ (exists w',
        get_model Toy.ext "facebook/opt-125m" "cpu" false "aws" false false []
          = (Raise (UnboundLocalError "executable"), w')).
Proof.
  split.
  - destruct (proj1 (get_model_single_device_raises Toy.ext "gpt2" "cpu"
                       false "aws" false false []))
      as (e & w' & Hrun & He); [reflexivity|].
    exists w'. rewrite <- (He tt tt); [exact Hrun | reflexivity | reflexivity].
  - destruct (proj2 (get_model_single_device_raises Toy.ext
                       "facebook/opt-125m" "cpu" false "aws" false false []))
      as (e & w' & Hrun & He); [reflexivity | reflexivity |].
    exists w'.
    rewrite <- (He float32 tt tt default_InferenceFuncConfig);
      [exact Hrun | reflexivity | reflexivity | reflexivity | reflexivity].
Defined.

(** On the small libraries the distributed branch returns an adapter,
    and a prompt of three tokens leaves the step counter at three. *)
Example get_model_distributed_example :
  exists model w',
    get_model Toy.ext "alpa/opt-125m" "cpu" false "aws" false false []
      = (Ok model, w')
    /\ w' = [ Alpa_init; Get_num_hosts; Get_config "125M" 2;
              Get_pipeshard_executable;
              Load_params_dis_array "/home/ubuntu/opt_weights/125M_np" false;
              Init_cache_dis_array 1 false; Executable_sync ]
    /\ exists r w'',
         __call__ model Toy.prompt None None None None
           {| backend := initial_state Toy.LayerCache; invocations := [] |}
           = (Ok r, w'')
         /\ step_ct (backend w'') = 3%Z
         /\ logits r = [13%Z]
         /\ past_key_values r = Some [[11; 12; 13]%Z].
Proof.
  eexists _, _. split; [reflexivity|]. split; [reflexivity|].
  eexists _, _. split; [reflexivity|]. repeat split.
Qed.

(** * Further properties *)

(** ** The adapter: failures, splitting a prompt, one step of generation *)

Lemma bind_ok {W A B} (m : M W A) (k : A -> M W B) (w w' : W) (a : A) :
  m w = (Ok a, w') -> bind m k w = k a w'.
Proof. intros H. unfold bind. rewrite H. reflexivity. Qed.

Lemma bind_raise {W A B} (m : M W A) (k : A -> M W B) (w w' : W) (e : exn) :
  m w = (Raise e, w') -> bind m k w = (Raise e, w').
Proof. intros H. unfold bind. rewrite H. reflexivity. Qed.

Lemma bind_assoc {W A B C} (m : M W A) (f : A -> M W B) (g : B -> M W C)
    (w : W) :
  bind (bind m f) g w = bind m (fun a => bind (f a) g) w.
Proof. unfold bind. destruct (m w) as [[a|e] w']; reflexivity. Qed.

Lemma bind_ext {W A B} (m : M W A) (k1 k2 : A -> M W B) (w : W) :
  (forall a w', k1 a w' = k2 a w') -> bind m k1 w = bind m k2 w.
Proof.
  intros H. unfold bind. destruct (m w) as [[a|e] w']; [apply H|reflexivity].
Qed.

Lemma bind_cong {W A B} (m1 m2 : M W A) (k : A -> M W B) :
  (forall w, m1 w = m2 w) -> forall w, bind m1 k w = bind m2 k w.
Proof. intros H w. unfold bind. rewrite H. reflexivity. Qed.

Arguments bind_ok {W A B} [m] k [w w' a] _.
Arguments bind_raise {W A B} [m] k [w w' e] _.
Arguments bind_assoc {W A B C} m f g w.
Arguments bind_ext {W A B} m [k1 k2] w _.
Arguments bind_cong {W A B} [m1 m2] k _ w.

Lemma slice_of_prefix (m i : nat) (t : Tensor) :
  i < m -> m <= ncols t ->
  slice_cols i (i + 1) (slice_cols 0 m t) = slice_cols i (i + 1) t.
Proof.
  intros Hi Hm. unfold slice_cols; cbn [ncols rows]. f_equal; [lia|].
  rewrite map_map. apply map_ext. intros r.
  replace (i + 1 - i) with 1 by lia. cbn [skipn].
  rewrite skipn_firstn_comm, firstn_firstn.
  replace (Nat.min 1 (m - 0 - i)) with 1 by lia. reflexivity.
Qed.

Lemma slice_of_suffix (m i : nat) (t : Tensor) :
  m + i < ncols t ->
  slice_cols i (i + 1) (slice_cols m (ncols t) t)
  = slice_cols (m + i) (m + i + 1) t.
Proof.
  intros Hi. unfold slice_cols; cbn [ncols rows]. f_equal; [lia|].
  rewrite map_map. apply map_ext. intros r.
  replace (i + 1 - i) with 1 by lia.
  replace (m + i + 1 - (m + i)) with 1 by lia.
  rewrite skipn_firstn_comm, firstn_firstn, skipn_skipn.
  replace (Nat.min 1 (ncols t - m - i)) with 1 by lia.
  replace (i + m) with (m + i) by lia. reflexivity.
Qed.

Lemma slice_of_column (v : list Z) :
  slice_cols 0 (0 + 1) (unsqueeze_last v) = unsqueeze_last v.
Proof.
  unfold slice_cols, unsqueeze_last; cbn [ncols rows]. f_equal.
  rewrite map_map. apply map_ext. reflexivity.
Qed.

Section AdapterComposition.

Variables LayerCache Logits Diag BS GenConfig Executable ModelConfig : Type.

Local Abbreviation Wrapped :=
  (WrappedInferenceFunc LayerCache Logits Diag BS GenConfig Executable
     ModelConfig).
Local Abbreviation Output := (InferenceFuncOutput LayerCache Logits Diag).
Local Abbreviation Inv := (Invocation LayerCache Logits Diag).
Local Abbreviation Wld := (World LayerCache Logits Diag BS).

Variable self : Wrapped.
Variables oa oh : PyFlag.

(** The loop body looks at the cache among the locals only. *)
Lemma call_body_ignores_ret (input_ids : Tensor) (i : nat)
    (ret1 ret2 : option Output) (past : option (Cache LayerCache)) (w : Wld) :
  call_body self input_ids oa oh i (ret1, past) w
  = call_body self input_ids oa oh i (ret2, past) w.
Proof. reflexivity. Qed.

(** Two loops whose bodies agree on the indices they visit. *)
Lemma for_each_ext {W L} (f g : nat -> L -> M W L) (idxs : list nat) :
  (forall i l w, In i idxs -> f i l w = g i l w) ->
  forall l w, for_each f idxs l w = for_each g idxs l w.
Proof.
  induction idxs as [|i idxs IH]; intros H l w; [reflexivity|].
  cbn [for_each].
  rewrite (bind_cong _ (fun w0 => H i l w0 (or_introl eq_refl))).
  apply bind_ext. intros l' w'.
  apply IH. intros j l0 w0 Hj. apply H. right. exact Hj.
Qed.

(** A loop over a concatenation is the two loops in sequence. *)
Lemma for_each_app {W L} (f : nat -> L -> M W L) (xs ys : list nat) :
  forall l w,
  for_each f (xs ++ ys) l w
  = bind (for_each f xs l) (fun l' => for_each f ys l') w.
Proof.
  induction xs as [|x xs IH]; intros l w; cbn [app for_each].
  - reflexivity.
  - rewrite bind_assoc. apply bind_ext. intros l' w'. apply IH.
Qed.

(** A loop over shifted indices is the loop with a shifted body. *)
Lemma for_each_shift {W L} (f : nat -> L -> M W L) (m n start : nat) :
  forall l w,
  for_each f (seq (m + start) n) l w
  = for_each (fun i => f (m + i)) (seq start n) l w.
Proof.
  revert start. induction n as [|n IH]; intros start l w; [reflexivity|].
  cbn [seq for_each]. apply bind_ext. intros l' w'.
  replace (S (m + start)) with (m + S start) by lia. apply IH.
Qed.

(** After at least one iteration that went through, [ret] is bound. *)
Lemma for_each_binds_ret (input_ids : Tensor) (n : nat) :
  forall start locals w l' w',
  for_each (call_body self input_ids oa oh) (seq start n) locals w
    = (Ok l', w') ->
  (0 < n \/ fst locals <> None) -> fst l' <> None.
Proof.
  induction n as [|n IH]; intros start locals w l' w' Hrun Hn.
  - cbn in Hrun. injection Hrun as <- _. destruct Hn; [lia|assumption].
  - cbn [seq for_each] in Hrun.
    destruct (call_body self input_ids oa oh start locals w)
      as [[l1|e] w1] eqn:Hbody;
      [rewrite (bind_ok _ Hbody) in Hrun
      |rewrite (bind_raise _ Hbody) in Hrun; discriminate].
    apply (IH _ _ _ _ _ Hrun). right.
    unfold call_body, bind in Hbody.
    destruct (invoke _ _ _ _ _ w) as [[r|e] w2]; [|discriminate].
    injection Hbody as <- _. discriminate.
Qed.

(** After at least one iteration the cache among the locals is the one
    of [ret]. *)
Lemma for_each_cache_of_ret (input_ids : Tensor) (n : nat) :
  forall start locals w l' w',
  for_each (call_body self input_ids oa oh) (seq start n) locals w
    = (Ok l', w') ->
  0 < n ->
  forall r, fst l' = Some r -> snd l' = past_key_values r.
Proof.
  induction n as [|n IH]; intros start locals w l' w' Hrun Hn; [lia|].
  cbn [seq for_each] in Hrun.
  destruct (call_body self input_ids oa oh start locals w)
    as [[l1|e] w1] eqn:Hbody;
    [rewrite (bind_ok _ Hbody) in Hrun
    |rewrite (bind_raise _ Hbody) in Hrun; discriminate].
  destruct n as [|n'].
  - cbn in Hrun. injection Hrun as <- _.
    unfold call_body, bind in Hbody.
    destruct (invoke _ _ _ _ _ w) as [[r|e] w2]; [|discriminate].
    injection Hbody as <- _. intros r' Hr. injection Hr as <-. reflexivity.
  - apply (IH _ _ _ _ _ Hrun). lia.
Qed.

(** The loop's cache does not depend on the [ret] it started from. *)
Lemma for_each_from_any_ret (input_ids : Tensor) (n : nat) :
  0 < n ->
  forall start ret1 ret2 past w,
  for_each (call_body self input_ids oa oh) (seq start n) (ret1, past) w
  = for_each (call_body self input_ids oa oh) (seq start n) (ret2, past) w.
Proof.
  destruct n as [|n]; [lia|]. intros _ start ret1 ret2 past w.
  cbn [seq for_each]. apply bind_cong. intros w0.
  apply call_body_ignores_ret.
Qed.

(** X2. Feeding a prompt in one call is feeding its first [m] tokens
    and then the others with the cache the first call returned: same
    outcome, same invocations, same state of the back end, also when an
    invocation fails on the way. *)
Theorem call_splits_at_any_position
    (input_ids : Tensor) (m : nat) (past : option (Cache LayerCache))
    (return_dict return_dict1 return_dict2 : PyFlag) (w : Wld) :
  1 <= m -> m < ncols input_ids ->
  __call__ self input_ids past oa oh return_dict w
  = bind (__call__ self (slice_cols 0 m input_ids) past oa oh return_dict1)
      (fun r =>
         __call__ self (slice_cols m (ncols input_ids) input_ids)
           (past_key_values r) oa oh return_dict2) w.
Proof.
  intros Hm HN. unfold __call__.
  replace (ncols (slice_cols 0 m input_ids)) with m
    by (unfold slice_cols; cbn [ncols]; lia).
  replace (ncols (slice_cols m (ncols input_ids) input_ids))
    with (ncols input_ids - m) by (unfold slice_cols; cbn [ncols]; lia).
  replace (ncols input_ids) with (m + (ncols input_ids - m)) at 1 by lia.
  set (k := ncols input_ids - m). assert (Hk : 0 < k) by (subst k; lia).
  rewrite seq_app.
  rewrite (bind_cong _ (for_each_app _ _ _ _)).
  rewrite !bind_assoc.
  rewrite (bind_cong _
             (for_each_ext
                (call_body self (slice_cols 0 m input_ids) oa oh)
                (call_body self input_ids oa oh) (seq 0 m)
                ltac:(intros i l w0 Hi; apply in_seq in Hi; unfold call_body;
                      rewrite slice_of_prefix by lia; reflexivity)
                (None, past))).
  destruct (for_each (call_body self input_ids oa oh) (seq 0 m) (None, past) w)
    as [[l1|e] w1] eqn:Hfirst;
    [rewrite !(bind_ok _ Hfirst) | rewrite !(bind_raise _ Hfirst); reflexivity].
  assert (Hret : fst l1 <> None)
    by (eapply for_each_binds_ret; [exact Hfirst | left; lia]).
  assert (Hpast : forall r, fst l1 = Some r -> snd l1 = past_key_values r)
    by (eapply for_each_cache_of_ret; [exact Hfirst | lia]).
  destruct l1 as [[r1|] past1]; [|cbn in Hret; congruence].
  cbn [fst snd] in *. specialize (Hpast r1 eq_refl). subst past1.
  rewrite (bind_ok _ (eq_refl : ret r1 w1 = (Ok r1, w1))).
  apply bind_cong. intros w2.
  rewrite (for_each_ext
             (call_body self (slice_cols m (ncols input_ids) input_ids) oa oh)
             (fun i => call_body self input_ids oa oh (m + i)) (seq 0 k)).
  2:{ intros i l w0 Hi. apply in_seq in Hi. unfold call_body.
      rewrite slice_of_suffix by (subst k; lia).
      replace (m + (i + 1)) with (m + i + 1) by lia. reflexivity. }
  rewrite <- (for_each_shift (call_body self input_ids oa oh) m k 0).
  replace (m + 0) with (0 + m) by lia.
  apply (for_each_from_any_ret input_ids Hk).
Qed.

(** The invocations of a loop over [n] positions, whatever becomes of
    them. *)
Lemma for_each_log (input_ids : Tensor) (n : nat) :
  forall start locals w res w',
  for_each (call_body self input_ids oa oh) (seq start n) locals w = (res, w') ->
  exists invs,
    invocations w' = (invocations w ++ invs)%list
    /\ length invs <= n
    /\ (forall i inv,
          nth_error invs i = Some inv -> S i < length invs ->
          is_ok (inv_outcome inv) = true)
    /\ match res with
       | Ok _ => length invs = n
       | Raise e =>
           exists last,
             nth_error invs (length invs - 1) = Some last
             /\ inv_outcome last = Raise e
       end.
Proof.
  induction n as [|n IH]; intros start locals w res w' Hrun.
  - cbn in Hrun. injection Hrun as <- <-.
    exists []. cbn. rewrite app_nil_r. repeat split; auto.
    intros [|i] inv H; discriminate.
  - cbn [seq for_each] in Hrun. unfold call_body at 1 in Hrun.
    rewrite bind_assoc in Hrun. unfold bind at 1, invoke at 1 in Hrun.
    destruct (inference_func self (slice_cols start (start + 1) input_ids)
                (snd locals) oa oh (backend w)) as [[r|e] b].
    + match type of Hrun with
      | context [ {| backend := b; invocations := (_ ++ [?i])%list |} ] =>
          set (inv0 := i) in Hrun
      end.
      unfold bind at 1, ret at 1 in Hrun.
      destruct (IH _ _ _ _ _ Hrun) as (invs & Hlog & Hlen & Hok & Hres).
      exists (inv0 :: invs). cbn [invocations] in Hlog.
      split; [rewrite Hlog, <- app_assoc; reflexivity|].
      split; [cbn; lia|].
      split.
      { intros [|i] inv Hnth Hi; cbn in Hnth, Hi.
        - injection Hnth as <-. reflexivity.
        - apply (Hok i inv Hnth). lia. }
      destruct res as [l'|e].
      * cbn. lia.
      * destruct Hres as (last & Hnth & Hlast). exists last.
        split; [|exact Hlast].
        assert (length invs - 1 < length invs)
          by (apply nth_error_Some; congruence).
        cbn [length]. replace (S (length invs) - 1) with (S (length invs - 1))
          by lia. exact Hnth.
    + injection Hrun as <- <-. cbn [invocations].
      eexists [_]. split; [reflexivity|]. split; [cbn; lia|].
      split; [intros [|[|i]] inv Hnth Hi; cbn in Hi; try lia; discriminate|].
      eexists. split; reflexivity.
Qed.

(** X1. [__call__] never invokes [inference_func] again after an
    invocation has raised: every invocation but the last one made has
    returned, at most [N] are made, and exactly [N] when [__call__]
    returns; when [__call__] raises on a batch with a token, the
    exception is the one its last invocation raised. *)
Theorem call_stops_at_first_failure
    (input_ids : Tensor) (past : option (Cache LayerCache))
    (return_dict : PyFlag) (w : Wld) :
  exists invs,
    invocations (snd (__call__ self input_ids past oa oh return_dict w))
      = (invocations w ++ invs)%list
    /\ length invs <= ncols input_ids
    /\ (forall i inv,
          nth_error invs i = Some inv -> S i < length invs ->
          is_ok (inv_outcome inv) = true)
    /\ (is_ok (fst (__call__ self input_ids past oa oh return_dict w)) = true ->
        length invs = ncols input_ids)
    /\ (forall e,
          1 <= ncols input_ids ->
          fst (__call__ self input_ids past oa oh return_dict w) = Raise e ->
          exists last,
            nth_error invs (length invs - 1) = Some last
            /\ inv_outcome last = Raise e).
Proof.
  unfold __call__.
  destruct (for_each (call_body self input_ids oa oh)
              (seq 0 (ncols input_ids)) (None, past) w)
    as [[l|e] w'] eqn:Hrun;
    destruct (for_each_log _ _ _ _ _ Hrun) as (invs & Hlog & Hlen & Hok & Hres);
    exists invs.
  - rewrite (bind_ok _ Hrun).
    assert (Hw : forall o, snd (match fst l with
                                | Some r => ret r
                                | None => raise o
                                end w') = w')
      by (intros o; destruct (fst l); reflexivity).
    rewrite Hw. repeat split; auto.
    intros e HN Hraise.
    assert (Hret : fst l <> None)
      by (eapply for_each_binds_ret; [exact Hrun | left; lia]).
    destruct (fst l); [discriminate|congruence].
  - rewrite (bind_raise _ Hrun). cbn [fst snd] in *.
    repeat split; auto; try discriminate.
    intros e' _ He. injection He as <-. exact Hres.
Qed.

(** X3. One step of generation after the first: with a cache that is
    neither [None] nor empty, calling the adapter on what
    [prepare_inputs_for_generation] returns is exactly one invocation
    of [inference_func], on the last token of every row and with that
    cache, however long the history is. *)
Theorem generation_step_is_one_invocation
    (input_ids : Tensor) (past : option (Cache LayerCache))
    (return_dict : PyFlag) (w : Wld) :
  wf input_ids -> 1 <= ncols input_ids -> truthy past = true ->
  exists prepared,
    prepare_inputs_for_generation self input_ids past = Ok prepared
    /\ __call__ self (prepared_input_ids prepared)
         (prepared_past_key_values prepared) oa oh return_dict w
       = invoke (inference_func self)
           (unsqueeze_last (column (ncols input_ids - 1) input_ids))
           past oa oh w.
Proof.
  intros Hwf HN Hpast. eexists. split.
  - unfold prepare_inputs_for_generation.
    rewrite Hpast, (select_last_column Hwf HN). reflexivity.
  - cbn [prepared_input_ids prepared_past_key_values].
    unfold __call__. cbn [unsqueeze_last ncols seq for_each].
    unfold call_body. rewrite !bind_assoc.
    change {| ncols := 1;
              rows := map (fun x => [x])
                        (column (ncols input_ids - 1) input_ids) |}
      with (unsqueeze_last (column (ncols input_ids - 1) input_ids)).
    rewrite slice_of_column.
    unfold bind, invoke. cbn [snd].
    destruct (inference_func self _ past oa oh (backend w)) as [[r|e] b];
      reflexivity.
Qed.

End AdapterComposition.

(** ** The closures of [get_model]: more on the step counter *)

Section DistributedMore.

Variables LayerCache Logits Diag : Type.
Variables RawModel HFConfig OPTConfig Exe ParamsAval Params : Type.
Variable ext :
  Externals LayerCache Logits Diag RawModel HFConfig OPTConfig Exe ParamsAval
    Params.

Variable executable : Exe.
Variable params : Params.
Variable init_cache : Cache LayerCache.
Variable config : OPTConfig.
Variable device : string.

Local Abbreviation State := (BackendState LayerCache).
Local Abbreviation inference_func :=
  (alpa_inference_func ext executable params init_cache config device).
Local Abbreviation batch_at_call := (batch_at_call ext init_cache config).

(** Two calls that work with the same step count: same outcome, same
    batch, same counter afterwards. *)
Lemma same_step_same_call (input_ids : Tensor)
    (past : option (Cache LayerCache)) (oa oh : PyFlag) (s1 s2 : State) :
  step_at_call past s1 = step_at_call past s2 ->
  exists res k b,
    inference_func input_ids past oa oh s1
      = (res, {| step_ct := k;
                 executable_calls := (executable_calls s1 ++ [b])%list |})
    /\ inference_func input_ids past oa oh s2
       = (res, {| step_ct := k;
                  executable_calls := (executable_calls s2 ++ [b])%list |}).
Proof.
  intros Hstep. rewrite !inference_func_unfold. cbv zeta.
  assert (Hb : batch_at_call input_ids past s1 = batch_at_call input_ids past s2)
    by (unfold TextGen.batch_at_call; rewrite Hstep; reflexivity).
  rewrite <- Hb, <- Hstep.
  destruct (executable_run ext executable params
              (batch_at_call input_ids past s1));
    eexists _, _, _; split; reflexivity.
Qed.

Lemma same_step_same_calls (oa oh : PyFlag)
    (calls : list (Tensor * option (Cache LayerCache))) :
  forall s1 s2,
  step_ct s1 = step_ct s2 ->
  exists res k bs,
    call_in_turn inference_func calls oa oh s1
      = (res, {| step_ct := k;
                 executable_calls := (executable_calls s1 ++ bs)%list |})
    /\ call_in_turn inference_func calls oa oh s2
       = (res, {| step_ct := k;
                  executable_calls := (executable_calls s2 ++ bs)%list |}).
Proof.
  induction calls as [|[ids past] rest IH]; intros s1 s2 Hstep.
  - exists (Ok []), (step_ct s1), []. rewrite !app_nil_r.
    split; [destruct s1 | rewrite Hstep; destruct s2]; reflexivity.
  - destruct (same_step_same_call ids past oa oh s1 s2) as (res & k & b & H1 & H2).
    { destruct past; cbn; auto. }
    cbn [call_in_turn]. destruct res as [r|e].
    + rewrite (bind_ok _ H1), (bind_ok _ H2).
      match goal with
      | |- context [bind (call_in_turn _ _ _ _) _ ?t1] =>
          match goal with
          | |- context [bind (call_in_turn _ _ _ _) _ ?t2] =>
              tryif constr_eq t1 t2 then fail else
              destruct (IH t1 t2 eq_refl) as (res' & k' & bs & H1' & H2')
          end
      end.
      cbn [executable_calls] in H1', H2'.
      destruct res' as [rs|e];
        [rewrite (bind_ok _ H1'), (bind_ok _ H2')
        |rewrite (bind_raise _ H1'), (bind_raise _ H2')];
        eexists _, k', (b :: bs); rewrite <- !app_assoc;
        split; reflexivity.
    + rewrite (bind_raise _ H1), (bind_raise _ H2).
      eexists _, k, [b]. split; reflexivity.
Qed.

(** X4. An episode does not depend on what the closure did before: its
    calls have the same outcomes, hand the same batches to the
    executable and leave the same step count, whatever the counter read
    when the episode began. *)
Theorem episode_forgets_earlier_calls (oa oh : PyFlag)
    (calls : list (Tensor * option (Cache LayerCache))) (s1 s2 : State) :
  one_episode calls ->
  exists res k batches,
    call_in_turn inference_func calls oa oh s1
      = (res, {| step_ct := k;
                 executable_calls := (executable_calls s1 ++ batches)%list |})
    /\ call_in_turn inference_func calls oa oh s2
       = (res, {| step_ct := k;
                  executable_calls := (executable_calls s2 ++ batches)%list |}).
Proof.
  destruct calls as [|[ids past] rest]; [contradiction|].
  intros (-> & _).
  destruct (same_step_same_call ids None oa oh s1 s2 eq_refl)
    as (res & k & b & H1 & H2).
  cbn [call_in_turn]. destruct res as [r|e].
  - rewrite (bind_ok _ H1), (bind_ok _ H2).
    destruct (same_step_same_calls oa oh rest
                {| step_ct := k;
                   executable_calls := (executable_calls s1 ++ [b])%list |}
                {| step_ct := k;
                   executable_calls := (executable_calls s2 ++ [b])%list |}
                eq_refl) as (res' & k' & bs & H1' & H2').
    cbn [executable_calls] in H1', H2'.
    destruct res' as [rs|e];
      [rewrite (bind_ok _ H1'), (bind_ok _ H2')
      |rewrite (bind_raise _ H1'), (bind_raise _ H2')];
      eexists _, k', (b :: bs); rewrite <- !app_assoc;
      split; reflexivity.
  - rewrite (bind_raise _ H1), (bind_raise _ H2).
    eexists _, k, [b]. split; reflexivity.
Qed.



(** X7. Passing the initial cache is not passing [None] once the
    counter has moved: the two calls leave the closure in different
    states, whatever the executable answers. *)
Theorem initial_cache_does_not_reset (input_ids : Tensor) (oa oh : PyFlag)
    (s : State) :
  step_ct s <> 0%Z ->
  snd (inference_func input_ids None oa oh s)
  <> snd (inference_func input_ids (Some init_cache) oa oh s).
Proof.
  intros Hstep. rewrite !inference_func_unfold. cbv zeta. intros Heq.
  assert (Hb : batch_at_call input_ids None s
               = batch_at_call input_ids (Some init_cache) s).
  { apply (f_equal (@executable_calls LayerCache)) in Heq.
    destruct (executable_run ext executable params
                (batch_at_call input_ids None s));
      destruct (executable_run ext executable params
                  (batch_at_call input_ids (Some init_cache) s));
      cbn [snd set_step_ct executable_calls] in Heq;
      apply app_inv_head in Heq;
      apply (f_equal (hd (batch_at_call input_ids None s))) in Heq;
      exact Heq. }
  rewrite <- Hb in Heq.
  apply (f_equal (@step_ct LayerCache)) in Heq.
  destruct (executable_run ext executable params
              (batch_at_call input_ids None s));
    cbn [snd set_step_ct step_ct step_at_call] in Heq; lia.
Qed.

End DistributedMore.

(** ** The single-device closures, and when [get_model] returns *)

(** A name without the separator is a single piece. *)
Lemma split_without_separator (sep : ascii) (s : string) :
  contains (String sep EmptyString) s = false -> split sep s = [s].
Proof.
  induction s as [|c rest IH]; intros H; [reflexivity|].
  cbn [contains String.prefix] in H.
  apply orb_false_iff in H. destruct H as [Hp Hrest].
  cbn [split]. destruct (Ascii.eqb_spec c sep) as [->|Hne].
  - destruct (ascii_dec sep sep) as [_|Hn]; [|congruence].
    destruct rest; discriminate.
  - rewrite (IH Hrest). reflexivity.
Qed.

(** Follows one library call in a run of [get_model] that returned. *)
Ltac returned_call H :=
  match type of H with
  | context [bind (call _ ?r) _ _] =>
      unfold bind at 1, call at 1 in H; destruct r eqn:?; [|discriminate H]
  | context [bind (lift ?r) _ _] =>
      unfold bind at 1, lift at 1 in H; destruct r eqn:?; [|discriminate H]
  end.

Section GetModelMore.

Variables LayerCache Logits Diag : Type.
Variables RawModel HFConfig OPTConfig Exe ParamsAval Params : Type.
Variable ext :
  Externals LayerCache Logits Diag RawModel HFConfig OPTConfig Exe ParamsAval
    Params.

Local Abbreviation State := (BackendState LayerCache).

(** X8. The closures of the two single-device branches hand back the
    logits and the cache only: [hidden_states] and [attentions] are
    [None] whatever was asked for, and nothing is kept between
    calls. *)
Theorem single_device_closures_return_no_diagnostics :
  (forall raw_model input_ids past oa oh (s s' : State) r,
     gpt_inference_func ext raw_model input_ids past oa oh s = (Ok r, s') ->
     hidden_states r = None /\ attentions r = None /\ s' = s)
  /\ (forall raw_model device input_ids past oa oh (s s' : State) r,
        opt_inference_func ext raw_model device input_ids past oa oh s
          = (Ok r, s') ->
        hidden_states r = None /\ attentions r = None /\ s' = s).
Proof.
  split.
  - intros raw_model input_ids past oa oh s s' r H.
    unfold gpt_inference_func, bind, lift, ret in H.
    destruct (raw_model_forward ext raw_model input_ids None past oa oh);
      inversion H; subst; auto.
  - intros raw_model device input_ids past oa oh s s' r H.
    unfold opt_inference_func, bind, lift, ret in H.
    destruct past as [[|layer rest]|]; cbn [index nth_error] in H;
      try discriminate;
      try destruct (layer_past_length ext layer); try discriminate;
      match type of H with
      | context [raw_model_forward ?a ?b ?c ?d ?e ?f ?g] =>
          destruct (raw_model_forward a b c d e f g)
      end; inversion H; subst; auto.
Qed.

(** X9. The attention mask of the ["facebook/opt"] closure: none on a
    call without a cache, where the closure does what the ["gpt"] one
    does; with a cache, ones for the past length of the first layer
    plus one position, whatever the width of [input_ids]; and
    [IndexError] on an empty tuple, which is not [None]. *)
Theorem opt_closure_attention_mask
    (raw_model : RawModel) (device : string) (input_ids : Tensor)
    (oa oh : PyFlag) (s : State) :
  opt_inference_func ext raw_model device input_ids None oa oh s
    = gpt_inference_func ext raw_model input_ids None oa oh s
  /\ opt_inference_func ext raw_model device input_ids (Some []) oa oh s
     = (Raise IndexError, s)
  /\ (forall layer rest past_length,
        layer_past_length ext layer = Ok past_length ->
        let mask := ones (length (rows input_ids)) (past_length + 1) in
        opt_inference_func ext raw_model device input_ids
          (Some (layer :: rest)) oa oh s
        = (match raw_model_forward ext raw_model input_ids (Some mask)
                   (Some (layer :: rest)) oa oh with
           | Ok out => Ok (mkInferenceFuncOutput (fst out) (snd out) None None)
           | Raise e => Raise e
           end, s)
        /\ wf mask
        /\ shape mask = (length (rows input_ids), past_length + 1)
        /\ Forall (Forall (fun x => x = 1%Z)) (rows mask)).
Proof.
  split; [reflexivity|]. split; [reflexivity|].
  intros layer rest past_length Hlen mask. split; [|split; [|split]].
  - unfold opt_inference_func, bind, lift, ret. cbn [index nth_error].
    rewrite Hlen. cbn [shape fst]. fold mask.
    destruct (raw_model_forward ext raw_model input_ids (Some mask)
                (Some (layer :: rest)) oa oh); reflexivity.
  - unfold wf, mask, ones. cbn [rows ncols]. apply Forall_forall.
    intros r Hr. apply repeat_spec in Hr. subst r. apply repeat_length.
  - unfold shape, mask, ones. cbn [rows ncols]. rewrite repeat_length.
    reflexivity.
  - unfold mask, ones. cbn [rows]. apply Forall_forall.
    intros r Hr. apply repeat_spec in Hr. subst r. apply Forall_forall.
    intros x Hx. apply repeat_spec in Hx. exact Hx.
Qed.

Variables model_name device : string.

(** X10. The families are tried in the order ["gpt"],
    ["facebook/opt"], ["alpa/opt"]: a name of one of the first two is
    handled by its single-device branch even when it names the third
    as well, and then [dummy], [cluster] and the two support flags are
    not looked at. *)
Theorem single_device_branches_ignore_cluster
    (dummy dummy' : bool) (cluster cluster' : string)
    (soa soh soa' soh' : bool) (w : list Event) :
  contains "gpt" model_name = true
  \/ contains "facebook/opt" model_name = true ->
  get_model ext model_name device dummy cluster soa soh w
  = get_model ext model_name device dummy' cluster' soa' soh' w.
Proof.
  intros H. unfold get_model.
  destruct (contains "gpt" model_name); [reflexivity|].
  destruct H as [H|H]; [discriminate|]. rewrite H. reflexivity.
Qed.

(** X11. When [get_model] returns for a model name in ASCII, it has
    taken the distributed branch: the name is of the ["alpa/opt"]
    family only, the cluster is ["aws"] or ["mbzuai"], the seven
    library calls ([alpa.init], the number of hosts, [get_config],
    [get_pipeshard_executable], [load_params_dis_array],
    [init_cache_dis_array], [executable.sync]) were made in this order
    and each of them succeeded, with at least two pipeline stages, the
    weights path of the cluster and a cache for batch size 1, and the
    adapter wraps the closure over that executable, those weights and
    that cache. *)
Theorem get_model_returns_only_distributed
    (dummy : bool) (cluster : string) (soa soh : bool) (w w' : list Event)
    (model :
       WrappedInferenceFunc LayerCache Logits Diag State
         (GenConfig HFConfig) Exe (ModelConfig HFConfig OPTConfig)) :
  Ranges.ascii_only model_name = true ->
  get_model ext model_name device dummy cluster soa soh w = (Ok model, w') ->
  contains "gpt" model_name = false
  /\ contains "facebook/opt" model_name = false
  /\ contains "alpa/opt" model_name = true
  /\ exists h piece cfg exe aval prm c0 path,
       alpa_init ext = Ok tt
       /\ cluster_num_hosts ext = Ok h
       /\ index (split "-" model_name) 1 = Ok piece
       /\ get_config ext (upper piece) (Z.max 2 h) = Ok cfg
       /\ (2 <= Z.max 2 h)%Z
       /\ ((cluster = "aws"
            /\ path = "/home/ubuntu/opt_weights/" ++ upper piece ++ "_np")
           \/ (cluster = "mbzuai"
               /\ path = "/dataset/opt_weights/" ++ upper piece ++ "_np"))
       /\ get_pipeshard_executable ext cfg soa soh = Ok (exe, aval)
       /\ load_params_dis_array ext path exe aval cfg dummy = Ok prm
       /\ init_cache_dis_array ext exe cfg 1 dummy = Ok c0
       /\ executable_sync ext exe = Ok tt
       /\ model = __init__ (alpa_inference_func ext exe prm c0 cfg device)
                    (MinimalConfig HFConfig default_InferenceFuncConfig) exe
                    (OPTModelConfig HFConfig cfg)
       /\ w' = (w ++ [ Alpa_init; Get_num_hosts;
                       Get_config (upper piece) (Z.max 2 h);
                       Get_pipeshard_executable;
                       Load_params_dis_array path dummy;
                       Init_cache_dis_array 1 dummy; Executable_sync ])%list.
Proof.
  intros _ H. unfold get_model in H.
  destruct (contains "gpt" model_name) eqn:Hg.
  { exfalso. unfold gpt_branch in H. rewrite !bind_assoc in H.
    returned_call H. rewrite bind_assoc in H. returned_call H.
    discriminate H. }
  destruct (contains "facebook/opt" model_name) eqn:Hf.
  { exfalso. unfold opt_branch in H. rewrite !bind_assoc in H.
    returned_call H. rewrite !bind_assoc in H. returned_call H.
    rewrite !bind_assoc in H. returned_call H.
    discriminate H. }
  destruct (contains "alpa/opt" model_name) eqn:Ha; [|discriminate H].
  repeat (split; [reflexivity|]).
  unfold alpa_branch in H. rewrite !bind_assoc in H.
  returned_call H. rewrite !bind_assoc in H.
  returned_call H. rewrite !bind_assoc in H.
  returned_call H. rewrite !bind_assoc in H.
  returned_call H. rewrite !bind_assoc in H.
  destruct (String.eqb_spec cluster "aws") as [Haws|Haws];
    [|destruct (String.eqb_spec cluster "mbzuai") as [Hmbz|Hmbz];
      [|discriminate H]];
    unfold bind at 1, ret at 1 in H;
    rewrite ?bind_assoc in H; returned_call H;
    match goal with
    | p : (Exe * ParamsAval)%type |- _ => destruct p as [exe aval]
    end;
    cbn [fst snd] in H;
    rewrite ?bind_assoc in H; returned_call H;
    rewrite ?bind_assoc in H; returned_call H;
    rewrite ?bind_assoc in H; returned_call H;
    unfold return_wrapped, load, bind, ret in H;
    cbn [local_inference_func local_inference_func_config local_executable
         local_model_config] in H;
    injection H as <- <-;
    repeat match goal with u : unit |- _ => destruct u end;
    eexists _, _, _, _, _, _, _, _;
    (split; [reflexivity|]);
    (split; [reflexivity|]); (split; [reflexivity|]);
    (split; [eassumption|]); (split; [lia|]);
    (split; [first [left; split; [assumption|reflexivity]
                   |right; split; [assumption|reflexivity]]|]);
    (split; [eassumption|]); (split; [eassumption|]);
    (split; [eassumption|]); (split; [eassumption|]);
    (split; [reflexivity|]);
    rewrite <- !app_assoc; reflexivity.
Qed.

(** X12. A name of the distributed family without ["-"] has no second
    piece: [get_model] raises [IndexError] once alpa is initialised and
    the hosts are counted, before it asks for any configuration. *)
Theorem get_model_needs_a_dash
    (dummy : bool) (cluster : string) (soa soh : bool) (w : list Event) :
  contains "gpt" model_name = false ->
  contains "facebook/opt" model_name = false ->
  contains "alpa/opt" model_name = true ->
  contains "-" model_name = false ->
  exists e evs,
    get_model ext model_name device dummy cluster soa soh w
      = (Raise e, (w ++ evs)%list)
    /\ Forall (fun ev => ev = Alpa_init \/ ev = Get_num_hosts) evs
    /\ (forall u h,
          alpa_init ext = Ok u -> cluster_num_hosts ext = Ok h ->
          e = IndexError /\ evs = [Alpa_init; Get_num_hosts]).
Proof.
  intros Hg Hf Ha Hdash. unfold get_model. rewrite Hg, Hf, Ha.
  unfold alpa_branch. rewrite (split_without_separator _ _ Hdash).
  cbn [index nth_error]. rewrite !bind_assoc.
  unfold bind at 1, call at 1. destruct (alpa_init ext) as [u|e].
  - rewrite !bind_assoc. unfold bind at 1, call at 1.
    destruct (cluster_num_hosts ext) as [h|e].
    + exists IndexError, [Alpa_init; Get_num_hosts].
      rewrite <- app_assoc. split; [reflexivity|].
      split; [repeat (apply Forall_cons; [auto|]); apply Forall_nil|].
      intros; split; reflexivity.
    + exists e, [Alpa_init; Get_num_hosts].
      rewrite <- app_assoc. split; [reflexivity|].
      split; [repeat (apply Forall_cons; [auto|]); apply Forall_nil|].
      intros; discriminate.
  - exists e, [Alpa_init]. split; [reflexivity|].
    split; [repeat (apply Forall_cons; [auto|]); apply Forall_nil|].
    intros; discriminate.
Qed.

End GetModelMore.

(** ** The benchmark of GPT and BERT: sizes, TFLOPS and the driver *)

Section ParameterCount.

Local Open Scope Z_scope.

(** X13. The parameter count is [V * (H + 1)] for the embedding plus
    [12 * H^2 + 11 * H] for every layer; for sizes that are not
    negative it is not negative and does not decrease when the number
    of layers, the hidden size or the vocabulary grows. *)
Theorem parameter_count_grows_with_sizes :
  (forall L H V,
     compute_parameter_count L H V = L * (12 * H ^ 2 + 11 * H) + V * (H + 1))
  /\ (forall L H V,
        0 <= L -> 0 <= H -> 0 <= V -> 0 <= compute_parameter_count L H V)
  /\ (forall L H V L' H' V',
        0 <= L <= L' -> 0 <= H <= H' -> 0 <= V <= V' ->
        compute_parameter_count L H V <= compute_parameter_count L' H' V').
Proof.
  assert (Hform : forall L H V,
            compute_parameter_count L H V
            = L * (12 * H ^ 2 + 11 * H) + V * (H + 1))
    by (intros; unfold compute_parameter_count; ring).
  split; [exact Hform|]. split.
  - intros L H V HL HH HV. rewrite Hform. nia.
  - intros L H V L' H' V' HL HH HV. rewrite !Hform.
    assert (12 * H ^ 2 + 11 * H <= 12 * H' ^ 2 + 11 * H') by nia.
    assert (0 <= 12 * H ^ 2 + 11 * H) by nia.
    assert (L * (12 * H ^ 2 + 11 * H) <= L' * (12 * H' ^ 2 + 11 * H')) by nia.
    assert (V * (H + 1) <= V' * (H' + 1)) by nia.
    lia.
Qed.

End ParameterCount.

Lemma int_truediv_raises (a b : Z) (e : exn) :
  int_truediv a b = Raise e -> e = ZeroDivisionError \/ e = OverflowError.
Proof.
  unfold int_truediv. destruct (b =? 0)%Z; [intros H; injection H; auto|].
  destruct (_ && _); [discriminate|].
  destruct (is_infinity _); [intros H; injection H; auto|discriminate].
Qed.

Lemma float_of_int_raises (z : Z) (e : exn) :
  float_of_int z = Raise e -> e = ZeroDivisionError \/ e = OverflowError.
Proof.
  unfold float_of_int.
  destruct (is_infinity _); [intros H; injection H; auto|discriminate].
Qed.

Lemma float_truediv_raises (x y : float) (e : exn) :
  float_truediv x y = Raise e -> e = ZeroDivisionError \/ e = OverflowError.
Proof.
  unfold float_truediv.
  destruct (is_zero y); [intros H; injection H; auto|discriminate].
Qed.

Lemma int_add_float_raises (n : Z) (x : float) (e : exn) :
  int_add_float n x = Raise e -> e = ZeroDivisionError \/ e = OverflowError.
Proof.
  unfold int_add_float. destruct (float_of_int n) eqn:Hn; [discriminate|].
  intros H. injection H as <-. apply (float_of_int_raises _ Hn).
Qed.

Lemma int_mul_float_raises (n : Z) (x : float) (e : exn) :
  int_mul_float n x = Raise e -> e = ZeroDivisionError \/ e = OverflowError.
Proof.
  unfold int_mul_float. destruct (float_of_int n) eqn:Hn; [discriminate|].
  intros H. injection H as <-. apply (float_of_int_raises _ Hn).
Qed.

Lemma float_add_int_raises (x : float) (n : Z) (e : exn) :
  float_add_int x n = Raise e -> e = ZeroDivisionError \/ e = OverflowError.
Proof.
  unfold float_add_int. destruct (float_of_int n) eqn:Hn; [discriminate|].
  intros H. injection H as <-. apply (float_of_int_raises _ Hn).
Qed.

Lemma float_truediv_int_raises (x : float) (n : Z) (e : exn) :
  float_truediv_int x n = Raise e ->
  e = ZeroDivisionError \/ e = OverflowError.
Proof.
  unfold float_truediv_int. destruct (float_of_int n) eqn:Hn.
  - apply float_truediv_raises.
  - intros H. injection H as <-. apply (float_of_int_raises _ Hn).
Qed.

(** An exception of a chain of steps is an exception of one of them. *)
Lemma and_then_raises {A B} (r : Result A) (k : A -> Result B)
    (P : exn -> Prop) (e : exn) :
  and_then r k = Raise e ->
  (forall e', r = Raise e' -> P e') ->
  (forall a e', k a = Raise e' -> P e') ->
  P e.
Proof.
  destruct r as [a|e0]; cbn; intros H Hr Hk; [apply (Hk a e H)|].
  injection H as <-. apply Hr. reflexivity.
Qed.

(** X14. [compute_tflops] raises nothing but [ZeroDivisionError] and
    [OverflowError], and it raises [ZeroDivisionError] for a hidden
    size of zero whatever the other arguments are. *)
Theorem compute_tflops_errors
    (B S L H V G : Z) (t : float) (checkpoint_activations : bool) :
  (forall e,
     compute_tflops B S L H V G t checkpoint_activations = Raise e ->
     e = ZeroDivisionError \/ e = OverflowError)
  /\ (H = 0%Z ->
      compute_tflops B S L H V G t checkpoint_activations
        = Raise ZeroDivisionError).
Proof.
  split.
  - intros e He. unfold compute_tflops in He.
    repeat
      (apply (@and_then_raises _ _ _ _
                (fun e => e = ZeroDivisionError \/ e = OverflowError) _ He);
       clear He;
       [intros ? He;
        first [ eapply int_truediv_raises; exact He
              | eapply float_truediv_raises; exact He
              | eapply int_add_float_raises; exact He
              | eapply int_mul_float_raises; exact He
              | eapply float_add_int_raises; exact He
              | eapply float_truediv_int_raises; exact He ]
       |clear e; intros ? e He]).
    eapply float_truediv_raises; exact He.
  - intros ->. reflexivity.
Qed.

Import BenchDriver.

Lemma subscript_str_outcome {A} (d : list (string * A)) (key : string) :
  (exists v, subscript_str d key = Done v)
  \/ subscript_str d key = Failed (KeyError (StrKey key)).
Proof.
  induction d as [|[k v] d IH]; cbn; [right; reflexivity|].
  destruct (String.eqb k key); [left; eauto|exact IH].
Qed.

Lemma subscript_benchmark_suites (n : Z) :
  (n = 1%Z /\ subscript_int benchmark_suites n = Done benchmark_suite_1_gpu)
  \/ (n = 4%Z /\ subscript_int benchmark_suites n = Done benchmark_suite_4_gpu)
  \/ (n = 8%Z /\ subscript_int benchmark_suites n = Done benchmark_suite_8_gpu)
  \/ (n = 16%Z
      /\ subscript_int benchmark_suites n = Done benchmark_suite_16_gpu)
  \/ (n <> 1%Z /\ n <> 4%Z /\ n <> 8%Z /\ n <> 16%Z
      /\ subscript_int benchmark_suites n = Failed (KeyError (IntKey n))).
Proof.
  unfold benchmark_suites, subscript_int.
  destruct (Z.eqb_spec 1 n) as [<-|H1]; [auto|].
  destruct (Z.eqb_spec 4 n) as [<-|H4]; [auto|].
  destruct (Z.eqb_spec 8 n) as [<-|H8]; [auto|].
  destruct (Z.eqb_spec 16 n) as [<-|H16]; [auto 6|].
  right; right; right; right. repeat split; congruence.
Qed.

Section DriverFacts.

Variable W : Type.
Variable benchmark_transformer_one_case : Case -> bool -> D W unit.
Variable env : Environment.
Variable use_profiling : bool.

Local Abbreviation benchmark_all_here :=
  (benchmark_all benchmark_transformer_one_case env use_profiling).
Local Abbreviation for_cases_here :=
  (fun cases => for_cases benchmark_transformer_one_case cases use_profiling).

(** Reading the number of GPUs changes nothing. *)
Lemma read_num_gpus_sees (n : Z) (w : Run W) :
  sees_gpus env n ->
  exists num, read_num_gpus env w = (Done num, w) /\ int num = Done n.
Proof.
  unfold sees_gpus, read_num_gpus, andthen, pure_step, done.
  intros [(Hl & info & Hi & Hc)|(Hl & res & gpus & Hr & Hg & Hn)];
    rewrite Hl.
  - rewrite Hi. eexists. split; [reflexivity|]. cbn. rewrite Hc. reflexivity.
  - rewrite Hr, Hg. eexists. split; [reflexivity|]. exact Hn.
Qed.

Lemma benchmark_all_with_count (n : Z) (w : Run W) :
  sees_gpus env n ->
  benchmark_all_here w =
  match subscript_int benchmark_suites n with
  | Done cases => for_cases_here cases w
  | Failed e => (Failed e, w)
  end.
Proof.
  intros Hsees. destruct (read_num_gpus_sees w Hsees) as (num & Hread & Hint).
  unfold benchmark_all, andthen at 1. rewrite Hread.
  unfold andthen at 1, pure_step at 1. rewrite Hint.
  unfold andthen at 1, pure_step at 1.
  destruct (subscript_int benchmark_suites n); reflexivity.
Qed.

(** The cases started by the loop are a prefix of the suite. *)
Lemma for_cases_prefix (cases : list Case) :
  forall w outcome w',
  for_cases_here cases w = (outcome, w') ->
  exists k,
    started w' = (started w ++ firstn k cases)%list
    /\ k <= length cases
    /\ match outcome with
       | Done _ => k = length cases
       | Failed e =>
           exists case i,
             nth_error cases (k - 1) = Some case /\ 1 <= k
             /\ fst (benchmark_transformer_one_case case use_profiling i)
                = Failed e
       end.
Proof.
  induction cases as [|case rest IH]; intros w outcome w' Hrun.
  - cbn in Hrun. injection Hrun as <- <-. exists 0. cbn.
    rewrite app_nil_r. auto.
  - cbn [for_cases] in Hrun. unfold andthen at 1, start_case at 1 in Hrun.
    destruct (benchmark_transformer_one_case case use_profiling (inner w))
      as [[u|e] i] eqn:Hcase.
    + destruct (IH _ _ _ Hrun) as (k & Hlog & Hk & Hout).
      exists (S k). cbn [started] in Hlog. cbn [firstn length].
      split; [rewrite Hlog, <- app_assoc; reflexivity|].
      split; [lia|].
      destruct outcome as [u'|e]; [lia|].
      destruct Hout as (c & i' & Hnth & Hk1 & Hfail).
      exists c, i'. split; [|split; [lia|exact Hfail]].
      replace (S k - 1) with (S (k - 1)) by lia. exact Hnth.
    + injection Hrun as <- <-. exists 1. cbn [started firstn length].
      split; [reflexivity|]. split; [lia|].
      exists case, (inner w). cbn [nth_error]. rewrite Hcase. auto.
Qed.

(** X16. On a machine whose number of GPUs is not 1, 4, 8 or 16,
    [benchmark_all] raises [KeyError] for that number, and on a ray
    cluster that lists no ["GPU"] resource it raises [KeyError] for
    ["GPU"]; in both cases no benchmark case is started. *)
Theorem benchmark_all_refuses_unknown_machines (w : Run W) :
  (forall n,
     sees_gpus env n ->
     n <> 1%Z -> n <> 4%Z -> n <> 8%Z -> n <> 16%Z ->
     benchmark_all_here w = (Failed (KeyError (IntKey n)), w))
  /\ (forall resources,
        args_local env = false ->
        cluster_resources env = Done resources ->
        (forall gpus, subscript_str resources "GPU" <> Done gpus) ->
        benchmark_all_here w = (Failed (KeyError (StrKey "GPU")), w)).
Proof.
  split.
  - intros n Hsees H1 H4 H8 H16. rewrite (benchmark_all_with_count w Hsees).
    destruct (subscript_benchmark_suites n)
      as [[Hn _]|[[Hn _]|[[Hn _]|[[Hn _]|[_ [_ [_ [_ Hn]]]]]]]];
      [congruence..|rewrite Hn; reflexivity].
  - intros resources Hl Hr Hno.
    unfold benchmark_all, read_num_gpus, andthen, pure_step. rewrite Hl, Hr.
    destruct (subscript_str_outcome resources "GPU") as [(v & Hv)| ->];
      [destruct (Hno v Hv)|reflexivity].
Qed.

(** X17. On a machine with 1, 4, 8 or 16 GPUs and with cases that run
    to their end, [benchmark_all] starts every case of the suite of
    that number, in the order of the suite, and returns; the suites of
    4 and 16 GPUs are empty, and every case of a suite has eight
    entries and asks for a mesh of as many devices as the machine has
    GPUs. *)
Theorem benchmark_all_runs_the_suite (n : Z) (cases : list Case)
    (w : Run W) :
  sees_gpus env n ->
  subscript_int benchmark_suites n = Done cases ->
  cases_always_finish benchmark_transformer_one_case ->
  (exists i, benchmark_all_here w
             = (Done tt, {| inner := i;
                            started := (started w ++ cases)%list |}))
  /\ Forall (fun case => length case = 8 /\ mesh_devices case = n) cases
  /\ (n = 4%Z \/ n = 16%Z -> cases = []).
Proof.
  intros Hsees Hcases Hfinish. split; [|split].
  - rewrite (benchmark_all_with_count w Hsees), Hcases.
    clear Hcases Hsees. revert w.
    induction cases as [|case rest IH]; intros w.
    + exists (inner w). cbn. rewrite app_nil_r. destruct w; reflexivity.
    + cbn [for_cases]. unfold andthen at 1, start_case at 1.
      destruct (Hfinish case use_profiling (inner w)) as (i & ->).
      destruct (IH {| inner := i; started := (started w ++ [case])%list |})
        as (i' & ->).
      exists i'. cbn [started]. rewrite <- app_assoc. reflexivity.
  - destruct (subscript_benchmark_suites n)
      as [[-> H]|[[-> H]|[[-> H]|[[-> H]|[_ [_ [_ [_ H]]]]]]]];
      rewrite H in Hcases; try discriminate; injection Hcases as <-;
      repeat constructor.
  - destruct (subscript_benchmark_suites n)
      as [[-> H]|[[-> H]|[[-> H]|[[-> H]|[_ [_ [_ [_ H]]]]]]]];
      rewrite H in Hcases; try discriminate; injection Hcases as <-;
      intros [Hn|Hn]; try discriminate; reflexivity.
Qed.

(** X18. [benchmark_all] stops at the first case that raises: the
    cases it has started are the first [k] of the suite, all of them
    when it returns, and when it raises the exception is the one of
    case number [k], after which no case was started. *)
Theorem benchmark_all_stops_at_first_failure (n : Z) (cases : list Case)
    (w w' : Run W) (outcome : Outcome unit) :
  sees_gpus env n ->
  subscript_int benchmark_suites n = Done cases ->
  benchmark_all_here w = (outcome, w') ->
  exists k,
    started w' = (started w ++ firstn k cases)%list
    /\ k <= length cases
    /\ match outcome with
       | Done _ => k = length cases
       | Failed e =>
           exists case i,
             nth_error cases (k - 1) = Some case /\ 1 <= k
             /\ fst (benchmark_transformer_one_case case use_profiling i)
                = Failed e
       end.
Proof.
  intros Hsees Hcases Hrun.
  rewrite (benchmark_all_with_count w Hsees), Hcases in Hrun.
  apply (for_cases_prefix _ _ Hrun).
Qed.

End DriverFacts.

(** ** The table of OPT sizes *)

Import SuiteOpt.

Lemma subscript_str_in {A} (d : list (string * A)) (key : string) (v : A) :
  subscript_str d key = Done v -> In (key, v) d.
Proof.
  induction d as [|[k v'] d IH]; cbn; [discriminate|].
  destruct (String.eqb_spec k key) as [->|Hne].
  - intros H. injection H as <-. left. reflexivity.
  - intros H. right. apply IH. exact H.
Qed.

(** X19. Every entry of [opt_specs] has sequence length 2048 and
    vocabulary size 50272, and a hidden size that is a multiple of its
    number of heads; its key is the name [get_model] derives from the
    model name ["alpa/opt-" + key], which is of the distributed family
    only; a name that is no key raises [KeyError]. *)
Theorem opt_specs_entries (name : string) :
  (forall S H L head V,
     subscript_str opt_specs name = Done (S, H, L, head, V) ->
     S = 2048%Z /\ V = 50272%Z /\ (0 < head)%Z /\ (H mod head = 0)%Z
     /\ and_then (index (split "-" ("alpa/opt-" ++ name)) 1)
          (fun piece => Ok (upper piece)) = Ok name
     /\ contains "gpt" ("alpa/opt-" ++ name) = false
     /\ contains "facebook/opt" ("alpa/opt-" ++ name) = false
     /\ contains "alpa/opt" ("alpa/opt-" ++ name) = true)
  /\ ((forall spec, ~ In (name, spec) opt_specs) ->
      subscript_str opt_specs name = Failed (KeyError (StrKey name))).
Proof.
  split.
  - intros S H L head V Hget. apply subscript_str_in in Hget.
    unfold opt_specs in Hget. cbn [In] in Hget.
    repeat (destruct Hget as [Hget|Hget];
            [injection Hget as <- <- <- <- <- <-;
             repeat split; vm_compute; reflexivity|]).
    contradiction.
  - intros Hno. destruct (subscript_str_outcome opt_specs name) as [(v & Hv)|H].
    + destruct (Hno v (subscript_str_in _ _ Hv)).
    + exact H.
Qed.

(** ** The further properties on the small back ends *)

Lemma call_stops_at_first_failure_witness :
  exists invs,
    invocations
      (snd (__call__ (Samples.failing_model 1) Toy.prompt None None None None
              Toy.fresh_world)) = invs
    /\ length invs <= 3
    /\ exists last,
         nth_error invs (length invs - 1) = Some last
         /\ inv_outcome last = Raise (ExternalError "device fault").
Proof.
  destruct (call_stops_at_first_failure (Samples.failing_model 1) None None
              Toy.prompt None None Toy.fresh_world)
    as (invs & Hlog & Hlen & _ & _ & Hraise).
  exists invs. split; [exact Hlog|]. split; [exact Hlen|].
  apply Hraise; [repeat constructor | reflexivity].
Defined.

Lemma call_splits_at_any_position_witness :
  __call__ Toy.model Toy.prompt None None None None Toy.fresh_world
  = bind (__call__ Toy.model (slice_cols 0 1 Toy.prompt) None None None None)
      (fun r =>
         __call__ Toy.model (slice_cols 1 (ncols Toy.prompt) Toy.prompt)
           (past_key_values r) None None None) Toy.fresh_world.
Proof.
  apply (call_splits_at_any_position Toy.model None None Toy.prompt
           (m := 1) None None None None Toy.fresh_world);
    repeat constructor.
Defined.

Lemma generation_step_is_one_invocation_witness :
  exists prepared,
    prepare_inputs_for_generation Toy.model Toy.prompt (Some [[11; 12]%Z])
      = Ok prepared
    /\ __call__ Toy.model (prepared_input_ids prepared)
         (prepared_past_key_values prepared) None None None Toy.fresh_world
       = invoke (inference_func Toy.model) (Toy.one_token 13)
           (Some [[11; 12]%Z]) None None Toy.fresh_world.
Proof.
  apply (generation_step_is_one_invocation Toy.model None None
           (Some [[11; 12]%Z]) None Toy.fresh_world toy_prompt_wf).
  - repeat constructor.
  - reflexivity.
Defined.

Lemma episode_forgets_earlier_calls_witness :
  exists res k batches,
    call_in_turn Toy.distributed_inference_func Toy.episode None None
      (initial_state Toy.LayerCache)
      = (res, {| step_ct := k; executable_calls := batches |})
    /\ call_in_turn Toy.distributed_inference_func Toy.episode None None
         Samples.after_three_calls
       = (res, {| step_ct := k; executable_calls := batches |}).
Proof.
  apply (episode_forgets_earlier_calls Toy.ext tt tt [[]] 2%Z "cpu" None None
           Toy.episode (initial_state Toy.LayerCache)
           Samples.after_three_calls toy_episode_is_one).
Defined.



Lemma initial_cache_does_not_reset_witness :
  snd (Toy.distributed_inference_func (Toy.one_token 6) None None None
         Samples.after_three_calls)
  <> snd (Toy.distributed_inference_func (Toy.one_token 6) (Some [[]]) None
            None Samples.after_three_calls).
Proof.
  apply (initial_cache_does_not_reset Toy.ext tt tt [[]] 2%Z "cpu"
           (Toy.one_token 6) None None Samples.after_three_calls).
  discriminate.
Defined.

Lemma single_device_closures_return_no_diagnostics_witness :
  exists r s',
    gpt_inference_func Toy.ext tt (Toy.one_token 5) None (Some true)
      (Some true) (initial_state Toy.LayerCache) = (Ok r, s')
    /\ hidden_states r = None /\ attentions r = None.
Proof.
  eexists _, _. split; [reflexivity|].
  destruct (proj1 (single_device_closures_return_no_diagnostics Toy.ext)
              tt (Toy.one_token 5) None (Some true) (Some true)
              (initial_state Toy.LayerCache) _ _ eq_refl)
    as (Hh & Ha & _).
  split; [exact Hh | exact Ha].
Defined.

Lemma opt_closure_attention_mask_witness :
  wf (ones 1 3) /\ shape (ones 1 3) = (1, 3).
Proof.
  destruct (proj2 (proj2 (opt_closure_attention_mask Toy.ext tt "cpu"
                            (Toy.one_token 13) None None
                            (initial_state Toy.LayerCache)))
              [11; 12]%Z [] 2 eq_refl)
    as (_ & Hwf & Hshape & _).
  split; [exact Hwf | exact Hshape].
Defined.

Lemma single_device_branches_ignore_cluster_witness :
  get_model Toy.ext "alpa/opt-gpt" "cpu" false "aws" false false []
  = get_model Toy.ext "alpa/opt-gpt" "cpu" true "nowhere" true true [].
Proof.
  apply (single_device_branches_ignore_cluster Toy.ext "alpa/opt-gpt" "cpu").
  left. reflexivity.
Defined.

(** The name ["alpa/opt-125m"] on the cluster ["aws"]: ASCII, of the
    distributed family only, and [get_model] returns. *)
Lemma get_model_returns_only_distributed_witness :
  Ranges.ascii_only "alpa/opt-125m" = true
  /\ is_ok (fst (get_model Toy.ext "alpa/opt-125m" "cpu" false "aws" false
                   false [])) = true
  /\ contains "gpt" "alpa/opt-125m" = false
  /\ contains "facebook/opt" "alpa/opt-125m" = false
  /\ contains "alpa/opt" "alpa/opt-125m" = true.
Proof.
  split; [reflexivity|]. split; [reflexivity|].
  edestruct (@get_model_returns_only_distributed _ _ _ _ _ _ _ _ _ Toy.ext
               "alpa/opt-125m" "cpu" false "aws" false false [])
    as (Hg & Hf & Ha & _); [reflexivity|reflexivity|].
  split; [exact Hg|]. split; [exact Hf | exact Ha].
Defined.

Lemma get_model_needs_a_dash_witness :
  exists e evs,
    get_model Toy.ext "alpa/opt" "cpu" false "aws" false false []
      = (Raise e, evs)
    /\ e = IndexError.
Proof.
  destruct (get_model_needs_a_dash Toy.ext "alpa/opt" "cpu" false "aws" false
              false [] eq_refl eq_refl eq_refl eq_refl)
    as (e & evs & Hrun & _ & He).
  exists e, ([] ++ evs)%list. split; [exact Hrun|].
  apply (He tt 1%Z); reflexivity.
Defined.

Lemma parameter_count_grows_with_sizes_witness :
  (0 <= compute_parameter_count 10 1024 25600)%Z
  /\ (compute_parameter_count 10 1024 25600
      <= compute_parameter_count 10 1536 25600)%Z.
Proof.
  split.
  - apply (proj1 (proj2 parameter_count_grows_with_sizes)); lia.
  - apply (proj2 (proj2 parameter_count_grows_with_sizes)); lia.
Defined.

Lemma compute_tflops_errors_witness :
  compute_tflops 8 1024 12 0 51200 4 0.5 false = Raise ZeroDivisionError
  /\ (ZeroDivisionError = ZeroDivisionError
      \/ ZeroDivisionError = OverflowError).
Proof.
  split.
  - apply (proj2 (compute_tflops_errors 8 1024 12 0 51200 4 0.5 false)).
    reflexivity.
  - apply (proj1 (compute_tflops_errors 8 1024 12 0 51200 4 0.5 false)).
    reflexivity.
Defined.

Lemma sees_8_gpus : sees_gpus ray_with_8_gpus 8.
Proof.
  right. split; [reflexivity|]. eexists _, _.
  split; [reflexivity|]. split; reflexivity.
Qed.

Lemma sees_2_gpus : sees_gpus local_with_2_gpus 2.
Proof.
  left. split; [reflexivity|]. eexists. split; reflexivity.
Qed.

Lemma counting_case_finishes : cases_always_finish counting_case.
Proof. intros case up i. eexists. reflexivity. Qed.

Lemma benchmark_all_refuses_unknown_machines_witness :
  benchmark_all counting_case local_with_2_gpus false
    {| inner := 0; started := [] |}
  = (Failed (KeyError (IntKey 2)), {| inner := 0; started := [] |})
  /\ benchmark_all counting_case ray_without_gpus false
       {| inner := 0; started := [] |}
     = (Failed (KeyError (StrKey "GPU")), {| inner := 0; started := [] |}).
Proof.
  split.
  - apply (proj1 (benchmark_all_refuses_unknown_machines counting_case
                    local_with_2_gpus false {| inner := 0; started := [] |})
             2%Z sees_2_gpus); discriminate.
  - apply (proj2 (benchmark_all_refuses_unknown_machines counting_case
                    ray_without_gpus false {| inner := 0; started := [] |})
             [("CPU", 64.0%float)] eq_refl eq_refl).
    intros gpus H. discriminate H.
Defined.

Lemma benchmark_all_runs_the_suite_witness :
  exists i,
    benchmark_all counting_case ray_with_8_gpus false
      {| inner := 0; started := [] |}
    = (Done tt, {| inner := i; started := benchmark_suite_8_gpu |}).
Proof.
  apply (proj1 (benchmark_all_runs_the_suite (n := 8) false
                  {| inner := 0; started := [] |} sees_8_gpus eq_refl
                  counting_case_finishes)).
Defined.

Lemma benchmark_all_stops_at_first_failure_witness :
  exists k,
    started (snd (benchmark_all failing_case ray_with_8_gpus false
                    {| inner := 0; started := [] |}))
      = firstn k benchmark_suite_8_gpu
    /\ k <= 2.
Proof.
  destruct (benchmark_all_stops_at_first_failure failing_case false (n := 8)
              {| inner := 0; started := [] |} sees_8_gpus eq_refl eq_refl)
    as (k & Hlog & Hk & _).
  exists k. split; [exact Hlog | exact Hk].
Defined.

Lemma opt_specs_entries_witness :
  and_then (index (split "-" ("alpa/opt-" ++ "1.3B")) 1)
    (fun piece => Ok (upper piece)) = Ok "1.3B"
  /\ subscript_str opt_specs "66B" = Failed (KeyError (StrKey "66B")).
Proof.
  split.
  - apply (proj1 (opt_specs_entries "1.3B") 2048 2048 24 32 50272)%Z.
    reflexivity.
  - apply (proj2 (opt_specs_entries "66B")).
    intros spec H. cbn in H.
    repeat (destruct H as [H|H]; [discriminate H|]). exact H.
Defined.
